(** * qpay-go: token lifecycle and authenticated-request pipeline

    A shallow embedding of [client.go], [errors.go], [config.go], of the
    token methods (unnamed/part_001) and of the domain operations
    (unnamed/part_006 and unnamed/part_007).

    Conventions.
    - A Go [int64] is a [Z]; [sub64] writes out the wrap-around of the
      subtraction used by the freshness checks.
    - A Go [error] interface value is an [option error]: [None] is the nil
      interface, [Some e] carries the dynamic type.
    - A method of [*Client] is a computation in the state monad [M] over a
      [World]: the four token fields, the wall clock, and the trace of the
      observable steps (mutex operations, field accesses, HTTP exchanges).
    - What the Go standard library decides (request construction, the HTTP
      round trip, JSON decoding, [http.StatusText]) is a field of [Env]. *)

From Stdlib Require Import ZArith Lia Permutation.
From stdpp Require Import base strings list gmap.

Local Open Scope string_scope.
Local Open Scope list_scope.
Local Open Scope Z_scope.

(** ** Machine integers *)

Definition wrap64 (z : Z) : Z := (z + 2 ^ 63) mod 2 ^ 64 - 2 ^ 63.

Definition in_int64 (z : Z) : Prop := - 2 ^ 63 <= z < 2 ^ 63.

(** [a - b] on [int64]. *)
Definition sub64 (a b : Z) : Z := wrap64 (a - b).

(** ** errors.go *)

(** [type Error struct]. *)
Record Error : Type := mkError {
  StatusCode : Z;
  Code : string;
  Message : string;
  RawBody : string
}.

(** A non-nil value of the Go interface [error], by dynamic type:
    - [ErrQPay p]: the dynamic type is [*Error], [p] is the pointer
      ([None] is the nil pointer stored in a non-nil interface);
    - [ErrWrap prefix inner]: the value built by
      [fmt.Errorf(prefix + "%w", inner)];
    - [ErrOther msg]: every other dynamic type. *)
Inductive error : Type :=
| ErrQPay (p : option Error)
| ErrWrap (prefix : string) (inner : error)
| ErrOther (msg : string).

(** [fmt.Errorf(prefix + "%w", err)]. *)
Definition fmt_Errorf_w (prefix : string) (err : error) : error :=
  ErrWrap prefix err.

(** [errors.Unwrap]. *)
Definition Unwrap (e : error) : option error :=
  match e with
  | ErrWrap _ inner => Some inner
  | _ => None
  end.

(** errors.go:19.  The result pair is (pointer to [Error], bool). *)
Definition IsQPayError (err : option error) : option Error * bool :=
  match err with
  | None => (None, false)
  | Some e =>
      match e with
      | ErrQPay qErr => (qErr, true)
      | _ => (None, false)
      end
  end.

(** A Go result pair [(T, error)] of which exactly one side is set. *)
Inductive res (A : Type) : Type :=
| Ok (a : A)
| Fail (e : error).
Arguments Ok {A} a.
Arguments Fail {A} e.

(** ** config.go *)

Record Config : Type := mkConfig {
  BaseURL : string;
  Username : string;
  Password : string;
  InvoiceCode : string;
  CallbackURL : string
}.

(** ** The token response (unnamed/part_007:6) *)

Record TokenResponse : Type := mkTokenResponse {
  TokenType : string;
  RefreshExpiresIn : Z;
  RefreshToken : string;
  AccessToken : string;
  ExpiresIn : Z;
  Scope : string;
  NotBeforePolicy : string;
  SessionState : string
}.

Definition zeroTokenResponse : TokenResponse :=
  mkTokenResponse "" 0 "" "" 0 "" "" "".

(** ** client.go: data *)

Definition tokenBufferSeconds : Z := 30.

(** The mutable part of [type Client struct]. *)
Record Client : Type := mkClient {
  accessToken : string;
  refreshToken : string;
  expiresAt : Z;
  refreshExpiresAt : Z
}.

(** What [NewClient] leaves in the token fields. *)
Definition emptyClient : Client := mkClient "" "" 0 0.

Inductive Auth : Type :=
| NoAuth
| Bearer (tok : string)          (* Authorization: "Bearer " + tok *)
| Basic (user pass : string).    (* req.SetBasicAuth(user, pass) *)

Record Request : Type := mkRequest {
  req_method : string;
  req_url : string;
  req_content_type : option string;
  req_auth : Auth;
  req_body : option string
}.

(** [c.http.Do(req)] followed by [io.ReadAll(resp.Body)]. *)
Inductive HttpOutcome : Type :=
| DoErr (e : error)
| ReadErr (e : error)
| Response (status : Z) (body : string).

Inductive Field : Type :=
| FAccessToken | FRefreshToken | FExpiresAt | FRefreshExpiresAt.

Inductive Event : Type :=
| EvLock
| EvUnlock
| EvRead (f : Field)
| EvWrite (f : Field)
| EvHTTP (r : Request).

(** The standard library and the remote side. *)
Record Env : Type := mkEnv {
  (* http.NewRequestWithContext(ctx, method, url, _): its error *)
  newRequest : string -> string -> option error;
  (* the exchange, given the requests already sent *)
  http_do : list Request -> Request -> HttpOutcome;
  (* http.StatusText *)
  StatusText : Z -> string;
  (* json.Unmarshal(body, &Error{}): what it assigns to the fields tagged
     "error" and "message"; the other two fields are tagged "-" *)
  json_error_fields : string -> option string * option string;
  (* json.Unmarshal(body, &token): the destination afterwards, and the error *)
  json_token : string -> TokenResponse -> TokenResponse * option error
}.

Record World : Type := mkWorld {
  client : Client;
  trace : list Event;
  clock : Z
}.

Definition requests (tr : list Event) : list Request :=
  omap (fun ev => match ev with EvHTTP r => Some r | _ => None end) tr.

(** ** The state monad of a client method *)

Definition M (A : Type) : Type := World -> A * World.

Definition ret {A} (a : A) : M A := fun w => (a, w).

Definition bind {A B} (m : M A) (k : A -> M B) : M B :=
  fun w => let '(a, w') := m w in k a w'.

Notation "x <- m ;; k" := (bind m (fun x => k))
  (at level 100, m at level 99, right associativity).
Notation "m ;;; k" := (bind m (fun _ => k))
  (at level 100, right associativity).

Definition emit (ev : Event) : M unit :=
  fun w => (tt, mkWorld (client w) (trace w ++ [ev]) (clock w)).

Definition mu_Lock : M unit := emit EvLock.
Definition mu_Unlock : M unit := emit EvUnlock.

Definition time_Now_Unix : M Z := fun w => (clock w, w).

Definition get_field {A} (f : Field) (proj : Client -> A) : M A :=
  emit (EvRead f) ;;; fun w => (proj (client w), w).

Definition set_field (f : Field) (upd : Client -> Client) : M unit :=
  emit (EvWrite f) ;;; fun w => (tt, mkWorld (upd (client w)) (trace w) (clock w)).

Definition set_accessToken (v : string) (c : Client) : Client :=
  mkClient v (refreshToken c) (expiresAt c) (refreshExpiresAt c).
Definition set_refreshToken (v : string) (c : Client) : Client :=
  mkClient (accessToken c) v (expiresAt c) (refreshExpiresAt c).
Definition set_expiresAt (v : Z) (c : Client) : Client :=
  mkClient (accessToken c) (refreshToken c) v (refreshExpiresAt c).
Definition set_refreshExpiresAt (v : Z) (c : Client) : Client :=
  mkClient (accessToken c) (refreshToken c) (expiresAt c) v.

(** [s != ""]. *)
Definition nonempty (s : string) : bool := negb (String.eqb s "").

(** [json.Marshal] and [json.Unmarshal] at a Go type. *)
Class Marshaler (B : Type) : Type :=
  json_Marshal : B -> res string.

Class Unmarshaler (A : Type) : Type := {
  go_zero : A;
  json_Unmarshal : string -> A -> A * option error
}.

(** A nil [interface{}] argument has no type; [Empty_set] stands for it. *)
#[export] Instance Empty_set_Marshaler : Marshaler Empty_set :=
  fun b => match b with end.
#[export] Instance unit_Unmarshaler : Unmarshaler unit :=
  {| go_zero := tt; json_Unmarshal := fun _ u => (u, None) |}.

Section ClientMethods.

Variable env : Env.
Variable cfg : Config.

(** [c.http.Do(req)] and the read of the body. *)
Definition http_Do (req : Request) : M HttpOutcome :=
  fun w => (http_do env (requests (trace w)) req,
            mkWorld (client w) (trace w ++ [EvHTTP req]) (clock w)).

(** [json.Unmarshal(respBody, qErr)] for [qErr *Error]: the returned error
    is dropped at every call site. *)
Definition json_Unmarshal_Error (respBody : string) (qErr : Error) : Error :=
  let '(c, m) := json_error_fields env respBody in
  mkError (StatusCode qErr) (default (Code qErr) c)
          (default (Message qErr) m) (RawBody qErr).

#[local] Instance TokenResponse_Unmarshaler : Unmarshaler TokenResponse :=
  {| go_zero := zeroTokenResponse; json_Unmarshal := json_token env |}.

(** [resp.StatusCode < 200 || resp.StatusCode >= 300]. *)
Definition not_2xx (status : Z) : bool := (status <? 200) || (status >=? 300).

(** client.go:86 *)
Definition doRefreshTokenHTTP (refreshTok : string) : M (res TokenResponse) :=
  let url := BaseURL cfg +:+ "/v2/auth/refresh" in
  match newRequest env "POST" url with
  | Some err => ret (Fail err)
  | None =>
      out <- http_Do (mkRequest "POST" url None (Bearer refreshTok) None) ;;
      match out with
      | DoErr err => ret (Fail err)
      | ReadErr err => ret (Fail err)
      | Response status respBody =>
          if not_2xx status then
            let qErr := mkError status "" "" respBody in
            let qErr := json_Unmarshal_Error respBody qErr in
            ret (Fail (ErrQPay (Some qErr)))
          else
            match json_Unmarshal respBody go_zero with
            | (_, Some err) => ret (Fail err)
            | (token, None) => ret (Ok token)
            end
      end
  end.

(** client.go:122 *)
Definition storeToken (token : TokenResponse) : M unit :=
  set_field FAccessToken (set_accessToken (AccessToken token)) ;;;
  set_field FRefreshToken (set_refreshToken (RefreshToken token)) ;;;
  set_field FExpiresAt (set_expiresAt (ExpiresIn token)) ;;;
  set_field FRefreshExpiresAt (set_refreshExpiresAt (RefreshExpiresIn token)).

(** The [qErr] block shared by [doRequest] and [doBasicAuthRequest]
    (client.go:164-175 and 208-219). *)
Definition classify_error (status : Z) (respBody : string) : Error :=
  let qErr := mkError status "" "" respBody in
  let qErr := json_Unmarshal_Error respBody qErr in
  let qErr := if String.eqb (Code qErr) ""
              then mkError (StatusCode qErr) (StatusText env status)
                           (Message qErr) (RawBody qErr)
              else qErr in
  let qErr := if String.eqb (Message qErr) ""
              then mkError (StatusCode qErr) (Code qErr) respBody (RawBody qErr)
              else qErr in
  qErr.

(** [if result != nil && len(respBody) > 0 { json.Unmarshal(respBody, result) }]:
    the destination afterwards and the (wrapped) error. *)
Definition decode_result {A} `{Unmarshaler A}
    (respBody : string) (result : option A) : option error * option A :=
  match result with
  | Some dst =>
      if nonempty respBody then
        match json_Unmarshal respBody dst with
        | (dst', Some err) =>
            (Some (fmt_Errorf_w "failed to unmarshal response: " err), Some dst')
        | (dst', None) => (None, Some dst')
        end
      else (None, result)
  | None => (None, result)
  end.

(** client.go:187 *)
Definition doBasicAuthRequest {A} `{Unmarshaler A}
    (method path : string) (result : option A) : M (option error * option A) :=
  let url := BaseURL cfg +:+ path in
  match newRequest env method url with
  | Some err => ret (Some (fmt_Errorf_w "failed to create request: " err), result)
  | None =>
      out <- http_Do (mkRequest method url None
                        (Basic (Username cfg) (Password cfg)) None) ;;
      match out with
      | DoErr err => ret (Some (fmt_Errorf_w "request failed: " err), result)
      | ReadErr err =>
          ret (Some (fmt_Errorf_w "failed to read response body: " err), result)
      | Response status respBody =>
          if not_2xx status then
            ret (Some (ErrQPay (Some (classify_error status respBody))), result)
          else ret (decode_result respBody result)
      end
  end.

(** unnamed/part_001:39 *)
Definition getTokenRequest : M (res TokenResponse) :=
  r <- doBasicAuthRequest "POST" "/v2/auth/token" (Some go_zero) ;;
  match r with
  | (Some err, _) => ret (Fail err)
  | (None, token) => ret (Ok (default go_zero token))
  end.

(** [c.accessToken != "" && now < c.expiresAt-tokenBufferSeconds], with the
    short-circuit of [&&]. *)
Definition access_check (now : Z) : M bool :=
  tok <- get_field FAccessToken accessToken ;;
  if nonempty tok then
    exp <- get_field FExpiresAt expiresAt ;;
    ret (now <? sub64 exp tokenBufferSeconds)
  else ret false.

(** [c.refreshToken != "" && now < c.refreshExpiresAt-tokenBufferSeconds]. *)
Definition refresh_check (now : Z) : M bool :=
  tok <- get_field FRefreshToken refreshToken ;;
  if nonempty tok then
    exp <- get_field FRefreshExpiresAt refreshExpiresAt ;;
    ret (now <? sub64 exp tokenBufferSeconds)
  else ret false.

(** client.go:73-82, the tail of [ensureToken]. *)
Definition ensureToken_fullAuth : M (option error) :=
  r <- getTokenRequest ;;
  match r with
  | Fail err => ret (Some (fmt_Errorf_w "failed to get token: " err))
  | Ok token =>
      mu_Lock ;;; storeToken token ;;; mu_Unlock ;;; ret None
  end.

(** client.go:46 *)
Definition ensureToken : M (option error) :=
  mu_Lock ;;;
  now <- time_Now_Unix ;;
  fresh <- access_check now ;;
  if fresh then
    mu_Unlock ;;; ret None
  else
    canRefresh <- refresh_check now ;;
    refreshTok <- get_field FRefreshToken refreshToken ;;
    mu_Unlock ;;;
    if canRefresh then
      r <- doRefreshTokenHTTP refreshTok ;;
      match r with
      | Ok token =>
          mu_Lock ;;; storeToken token ;;; mu_Unlock ;;; ret None
      | Fail _ => ensureToken_fullAuth
      end
    else ensureToken_fullAuth.

(** unnamed/part_001:7 *)
Definition GetToken : M (res TokenResponse) :=
  r <- getTokenRequest ;;
  match r with
  | Fail err => ret (Fail err)
  | Ok token =>
      mu_Lock ;;; storeToken token ;;; mu_Unlock ;;; ret (Ok token)
  end.

(** unnamed/part_001:22, the method [RefreshToken] of the client (the plain name is
    the field of [TokenResponse]). *)
Definition Client_RefreshToken : M (res TokenResponse) :=
  mu_Lock ;;;
  refreshTok <- get_field FRefreshToken refreshToken ;;
  mu_Unlock ;;;
  r <- doRefreshTokenHTTP refreshTok ;;
  match r with
  | Fail err => ret (Fail err)
  | Ok token =>
      mu_Lock ;;; storeToken token ;;; mu_Unlock ;;; ret (Ok token)
  end.

(** client.go:129.  [body] and [result] are the two [interface{}]
    arguments, [None] for nil. *)
Definition doRequest {B A} `{Marshaler B} `{Unmarshaler A}
    (method path : string) (body : option B) (result : option A)
    : M (option error * option A) :=
  e <- ensureToken ;;
  match e with
  | Some err => ret (Some err, result)
  | None =>
      let marshalled : res (option string) :=
        match body with
        | Some b =>
            match json_Marshal b with
            | Fail err => Fail (fmt_Errorf_w "failed to marshal request body: " err)
            | Ok data => Ok (Some data)
            end
        | None => Ok None
        end in
      match marshalled with
      | Fail err => ret (Some err, result)
      | Ok bodyReader =>
          let url := BaseURL cfg +:+ path in
          match newRequest env method url with
          | Some err =>
              ret (Some (fmt_Errorf_w "failed to create request: " err), result)
          | None =>
              tok <- get_field FAccessToken accessToken ;;
              out <- http_Do (mkRequest method url (Some "application/json")
                                (Bearer tok) bodyReader) ;;
              match out with
              | DoErr err => ret (Some (fmt_Errorf_w "request failed: " err), result)
              | ReadErr err =>
                  ret (Some (fmt_Errorf_w "failed to read response body: " err),
                       result)
              | Response status respBody =>
                  if not_2xx status then
                    ret (Some (ErrQPay (Some (classify_error status respBody))),
                         result)
                  else ret (decode_result respBody result)
              end
          end
      end
  end.

End ClientMethods.

(** ** Domain operations (unnamed/part_006, unnamed/part_007)

    The request and response structs hold floats, pointers and nested
    arrays; what the operations below need of them is their JSON codec. *)

Section DomainOperations.

Variable env : Env.
Variable cfg : Config.

Context {CreateInvoiceRequest InvoiceResponse PaymentDetail : Type}.
Context `{!Marshaler CreateInvoiceRequest}.
Context `{!Unmarshaler InvoiceResponse} `{!Unmarshaler PaymentDetail}.

(** unnamed/part_006:7 *)
Definition CreateInvoice (req : CreateInvoiceRequest) : M (res InvoiceResponse) :=
  r <- doRequest env cfg "POST" "/v2/invoice" (Some req) (Some go_zero) ;;
  match r with
  | (Some err, _) => ret (Fail err)
  | (None, resp) => ret (Ok (default go_zero resp))
  end.

(** unnamed/part_006:37 *)
Definition CancelInvoice (invoiceID : string) : M (option error) :=
  r <- doRequest (B := Empty_set) (A := unit) env cfg
         "DELETE" ("/v2/invoice/" +:+ invoiceID) None None ;;
  ret r.1.

(** unnamed/part_007:422 *)
Definition GetPayment (paymentID : string) : M (res PaymentDetail) :=
  r <- doRequest (B := Empty_set) env cfg
         "GET" ("/v2/payment/" +:+ paymentID) None (Some go_zero) ;;
  match r with
  | (Some err, _) => ret (Fail err)
  | (None, resp) => ret (Ok (default go_zero resp))
  end.

End DomainOperations.

(** The remaining operations of unnamed/part_006 (invoices),
    unnamed/part_007 (payments) and unnamed/part_004 (ebarimt). *)

Section MoreDomainOperations.

Variable env : Env.
Variable cfg : Config.

Context {CreateSimpleInvoiceRequest CreateEbarimtInvoiceRequest InvoiceResponse : Type}.
Context {PaymentCheckRequest PaymentCheckResponse : Type}.
Context {PaymentListRequest PaymentListResponse : Type}.
Context {PaymentCancelRequest PaymentRefundRequest : Type}.
Context {CreateEbarimtRequest EbarimtResponse : Type}.
Context `{!Marshaler CreateSimpleInvoiceRequest}
        `{!Marshaler CreateEbarimtInvoiceRequest}
        `{!Marshaler PaymentCheckRequest} `{!Marshaler PaymentListRequest}
        `{!Marshaler PaymentCancelRequest} `{!Marshaler PaymentRefundRequest}
        `{!Marshaler CreateEbarimtRequest}.
Context `{!Unmarshaler InvoiceResponse} `{!Unmarshaler PaymentCheckResponse}
        `{!Unmarshaler PaymentListResponse} `{!Unmarshaler EbarimtResponse}.

(** unnamed/part_006:17 *)
Definition CreateSimpleInvoice (req : CreateSimpleInvoiceRequest)
    : M (res InvoiceResponse) :=
  r <- doRequest env cfg "POST" "/v2/invoice" (Some req)
         (Some (go_zero (A := InvoiceResponse))) ;;
  match r with
  | (Some err, _) => ret (Fail err)
  | (None, resp) => ret (Ok (default go_zero resp))
  end.

(** unnamed/part_006:27 *)
Definition CreateEbarimtInvoice (req : CreateEbarimtInvoiceRequest)
    : M (res InvoiceResponse) :=
  r <- doRequest env cfg "POST" "/v2/invoice" (Some req)
         (Some (go_zero (A := InvoiceResponse))) ;;
  match r with
  | (Some err, _) => ret (Fail err)
  | (None, resp) => ret (Ok (default go_zero resp))
  end.

(** unnamed/part_007:432 *)
Definition CheckPayment (req : PaymentCheckRequest) : M (res PaymentCheckResponse) :=
  r <- doRequest env cfg "POST" "/v2/payment/check" (Some req)
         (Some (go_zero (A := PaymentCheckResponse))) ;;
  match r with
  | (Some err, _) => ret (Fail err)
  | (None, resp) => ret (Ok (default go_zero resp))
  end.

(** unnamed/part_007:442 *)
Definition ListPayments (req : PaymentListRequest) : M (res PaymentListResponse) :=
  r <- doRequest env cfg "POST" "/v2/payment/list" (Some req)
         (Some (go_zero (A := PaymentListResponse))) ;;
  match r with
  | (Some err, _) => ret (Fail err)
  | (None, resp) => ret (Ok (default go_zero resp))
  end.

(** unnamed/part_007:452 *)
Definition CancelPayment (paymentID : string) (req : PaymentCancelRequest)
    : M (option error) :=
  r <- doRequest (A := unit) env cfg
         "DELETE" ("/v2/payment/cancel/" +:+ paymentID) (Some req) None ;;
  ret r.1.

(** unnamed/part_007:458 *)
Definition RefundPayment (paymentID : string) (req : PaymentRefundRequest)
    : M (option error) :=
  r <- doRequest (A := unit) env cfg
         "DELETE" ("/v2/payment/refund/" +:+ paymentID) (Some req) None ;;
  ret r.1.

(** unnamed/part_004:7 *)
Definition CreateEbarimt (req : CreateEbarimtRequest) : M (res EbarimtResponse) :=
  r <- doRequest env cfg "POST" "/v2/ebarimt_v3/create" (Some req)
         (Some (go_zero (A := EbarimtResponse))) ;;
  match r with
  | (Some err, _) => ret (Fail err)
  | (None, resp) => ret (Ok (default go_zero resp))
  end.

(** unnamed/part_004:17 *)
Definition CancelEbarimt (paymentID : string) : M (res EbarimtResponse) :=
  r <- doRequest (B := Empty_set) env cfg
         "DELETE" ("/v2/ebarimt_v3/" +:+ paymentID) None
         (Some (go_zero (A := EbarimtResponse))) ;;
  match r with
  | (Some err, _) => ret (Fail err)
  | (None, resp) => ret (Ok (default go_zero resp))
  end.

End MoreDomainOperations.

(** client.go:29 and client.go:39.  Both constructors leave the four token
    fields at their zero values; the HTTP client they set up is the [http_do]
    of the environment. *)
Definition NewClient (cfg : Config) : Client := mkClient "" "" 0 0.
Definition NewClientWithHTTPClient (cfg : Config) : Client := mkClient "" "" 0 0.

(** ** config.go: [LoadConfigFromEnv] *)

(** [os.Getenv]: the empty string for a variable that is not set. *)
Definition Getenv (environ : gmap string string) (name : string) : string :=
  default "" (environ !! name).

(** The map literal [required]. *)
Definition required (cfg : Config) : gmap string string :=
  <["QPAY_BASE_URL" := BaseURL cfg]>
  (<["QPAY_USERNAME" := Username cfg]>
  (<["QPAY_PASSWORD" := Password cfg]>
  (<["QPAY_INVOICE_CODE" := InvoiceCode cfg]>
  (<["QPAY_CALLBACK_URL" := CallbackURL cfg]> ∅)))).

(** The body of [for name, val := range required], over the entries in the
    order the runtime yields them. *)
Fixpoint range_required (entries : list (string * string)) : option error :=
  match entries with
  | [] => None
  | (name, val) :: rest =>
      if String.eqb val ""
      then Some (ErrOther ("required environment variable " +:+ name +:+ " is not set"))
      else range_required rest
  end.

Definition config_of_env (environ : gmap string string) : Config :=
  mkConfig (Getenv environ "QPAY_BASE_URL") (Getenv environ "QPAY_USERNAME")
           (Getenv environ "QPAY_PASSWORD") (Getenv environ "QPAY_INVOICE_CODE")
           (Getenv environ "QPAY_CALLBACK_URL").

(** config.go:25.  Go leaves the iteration order of a map unspecified:
    [order] is the order of this run, a permutation of the entries of
    [required]. *)
Definition LoadConfigFromEnv (environ : gmap string string)
    (order : list (string * string)) : res Config :=
  let cfg := config_of_env environ in
  match range_required order with
  | Some err => Fail err
  | None => Ok cfg
  end.

Definition iteration_order (cfg : Config) (order : list (string * string)) : Prop :=
  order ≡ₚ map_to_list (required cfg).

(** ** Observations on a trace *)

(** The mutex discipline of one goroutine's steps: [Some held] when every
    field access happened with the mutex held, [held] being the state at
    the end; [None] as soon as a field is touched without it. *)
Fixpoint lock_discipline (held : bool) (tr : list Event) : option bool :=
  match tr with
  | [] => Some held
  | EvLock :: rest => lock_discipline true rest
  | EvUnlock :: rest => lock_discipline false rest
  | EvRead _ :: rest | EvWrite _ :: rest =>
      if held then lock_discipline held rest else None
  | EvHTTP _ :: rest => lock_discipline held rest
  end.

(** No HTTP exchange while the mutex is held. *)
Fixpoint network_unlocked (held : bool) (tr : list Event) : bool :=
  match tr with
  | [] => true
  | EvLock :: rest => network_unlocked true rest
  | EvUnlock :: rest => network_unlocked false rest
  | EvHTTP _ :: rest => negb held && network_unlocked held rest
  | _ :: rest => network_unlocked held rest
  end.

(** The steps a computation added to the trace. *)
Definition emitted (w w' : World) : list Event :=
  drop (length (trace w)) (trace w').

(** Run [m] with the clock reading [t]. *)
Definition at_time {A} (t : Z) (m : M A) : M A :=
  fun w => m (mkWorld (client w) (trace w) t).

(** [ensureToken] called once at each of the given times, in order. *)
Fixpoint ensureToken_seq (env : Env) (cfg : Config) (times : list Z)
    : M (list (option error)) :=
  match times with
  | [] => ret []
  | t :: rest =>
      e <- at_time t (ensureToken env cfg) ;;
      es <- ensureToken_seq env cfg rest ;;
      ret (e :: es)
  end.

(** The two authentication requests, as the code builds them. *)
Definition refreshRequest (cfg : Config) (refreshTok : string) : Request :=
  mkRequest "POST" (BaseURL cfg +:+ "/v2/auth/refresh") None (Bearer refreshTok) None.

Definition tokenRequest (cfg : Config) : Request :=
  mkRequest "POST" (BaseURL cfg +:+ "/v2/auth/token") None
            (Basic (Username cfg) (Password cfg)) None.

(** [bodyReader] is what [doRequest] sends for [body]: nothing for a nil
    body, the marshalled text otherwise. *)
Definition marshals {B} `{Marshaler B} (body : option B) (bodyReader : option string)
    : Prop :=
  match body with
  | Some b => exists data, json_Marshal b = Ok data /\ bodyReader = Some data
  | None => bodyReader = None
  end.

(** The token fields after [storeToken token]. *)
Definition stored (token : TokenResponse) : Client :=
  mkClient (AccessToken token) (RefreshToken token)
           (ExpiresIn token) (RefreshExpiresIn token).

(** * Vocabulary for statements and proofs *)

(** The request [doRequest] builds for a domain call. *)
Definition domainRequest (cfg : Config) (method path tok : string)
    (bodyReader : option string) : Request :=
  mkRequest method (BaseURL cfg +:+ path) (Some "application/json")
            (Bearer tok) bodyReader.

(** What [doRequest] makes of its [body] argument (client.go:134-141). *)
Definition marshal_body {B} `{Marshaler B} (body : option B) : res (option string) :=
  match body with
  | Some b =>
      match json_Marshal b with
      | Fail err => Fail (ErrWrap "failed to marshal request body: " err)
      | Ok data => Ok (Some data)
      end
  | None => Ok None
  end.

(** Every write of a token field happens with the mutex held (reads are
    not looked at): [Some held] with the state of the mutex at the end, or
    [None] at the first write without it. *)
Fixpoint write_discipline (held : bool) (tr : list Event) : option bool :=
  match tr with
  | [] => Some held
  | EvLock :: rest => write_discipline true rest
  | EvUnlock :: rest => write_discipline false rest
  | EvWrite _ :: rest => if held then write_discipline held rest else None
  | _ :: rest => write_discipline held rest
  end.

(** After the requests of [ensureToken], which left [w1], the call that
    ended in [w'] has sent exactly one more request: the given domain request
    with the access token of [w1] as bearer credential (provided the request
    can be built). *)
Definition sends_domain_request (env : Env) (cfg : Config) (w w1 w' : World)
    (method path : string) (bodyReader : option string) : Prop :=
  newRequest env method (BaseURL cfg +:+ path) = None ->
  requests (emitted w w') =
  requests (emitted w w1) ++
  [domainRequest cfg method path (accessToken (client w1)) bodyReader].

(** The server answers the given domain request, sent from [w1], with
    [status] and [respBody]. *)
Definition answered (env : Env) (cfg : Config) (w1 : World)
    (method path : string) (bodyReader : option string)
    (status : Z) (respBody : string) : Prop :=
  newRequest env method (BaseURL cfg +:+ path) = None /\
  http_do env (requests (trace w1))
    (domainRequest cfg method path (accessToken (client w1)) bodyReader) =
  Response status respBody.

(** The result of an operation that decodes [respBody] into a fresh
    response value. *)
Definition returns_decoded {A} `{Unmarshaler A} (respBody : string) (r : res A)
    : Prop :=
  (respBody = "" -> r = Ok go_zero) /\
  (forall v, respBody <> "" -> json_Unmarshal respBody go_zero = (v, None) ->
             r = Ok v) /\
  (forall v e, respBody <> "" -> json_Unmarshal respBody go_zero = (v, Some e) ->
               r = Fail (ErrWrap "failed to unmarshal response: " e)).

(** An operation that returns a response is [doRequest] into a fresh
    response value. *)
Definition value_op (env : Env) (cfg : Config)
    {B A} `{!Marshaler B} `{!Unmarshaler A}
    (op : M (res A)) (method path : string) (body : option B) : Prop :=
  forall w,
    op w =
    let r := doRequest env cfg method path body (Some (go_zero (A := A))) w in
    (match r.1 with
     | (Some err, _) => Fail err
     | (None, resp) => Ok (default go_zero resp)
     end, r.2).

(** An operation that returns only an error is [doRequest] with a nil
    destination. *)
Definition error_op (env : Env) (cfg : Config) {B} `{!Marshaler B}
    (op : M (option error)) (method path : string) (body : option B) : Prop :=
  forall w,
    op w =
    let r := doRequest (A := unit) env cfg method path body None w in
    (r.1.1, r.2).

(** [w] with more steps on its trace. *)
Definition extend (w : World) (evs : list Event) : World :=
  mkWorld (client w) (trace w ++ evs) (clock w).

Definition store_events : list Event :=
  [EvLock; EvWrite FAccessToken; EvWrite FRefreshToken; EvWrite FExpiresAt;
   EvWrite FRefreshExpiresAt; EvUnlock].

(** [w] after [c.mu.Lock(); c.storeToken(token); c.mu.Unlock()]. *)
Definition install (token : TokenResponse) (w : World) : World :=
  mkWorld (stored token) (trace w ++ store_events) (clock w).

(** The two tests of [ensureToken], on the field values. *)
Definition access_fresh (now : Z) (c : Client) : bool :=
  nonempty (accessToken c) && (now <? sub64 (expiresAt c) tokenBufferSeconds).

Definition can_refresh (now : Z) (c : Client) : bool :=
  nonempty (refreshToken c) && (now <? sub64 (refreshExpiresAt c) tokenBufferSeconds).

(** The steps of the first critical section of [ensureToken] when the
    access token is not fresh. *)
Definition prelude (c : Client) : list Event :=
  [EvLock; EvRead FAccessToken] ++
  (if nonempty (accessToken c) then [EvRead FExpiresAt] else []) ++
  [EvRead FRefreshToken] ++
  (if nonempty (refreshToken c) then [EvRead FRefreshExpiresAt] else []) ++
  [EvRead FRefreshToken; EvUnlock].

Definition refresh_sent (env : Env) (cfg : Config) (refreshTok : string) : list Event :=
  match newRequest env "POST" (BaseURL cfg +:+ "/v2/auth/refresh") with
  | Some _ => []
  | None => [EvHTTP (refreshRequest cfg refreshTok)]
  end.

Definition token_sent (env : Env) (cfg : Config) : list Event :=
  match newRequest env "POST" (BaseURL cfg +:+ "/v2/auth/token") with
  | Some _ => []
  | None => [EvHTTP (tokenRequest cfg)]
  end.

(** The steps of the first critical section of [RefreshToken]. *)
Definition refresh_prelude : list Event := [EvLock; EvRead FRefreshToken; EvUnlock].

(** Steps that keep the discipline when started without the mutex and that
    end without it, with every HTTP exchange outside the critical sections. *)
Definition disciplined (evs : list Event) : Prop :=
  lock_discipline false evs = Some false /\ network_unlocked false evs = true.

(** The five variables [LoadConfigFromEnv] requires, and the text of its
    error. *)
Definition required_names : list string :=
  ["QPAY_BASE_URL"; "QPAY_USERNAME"; "QPAY_PASSWORD"; "QPAY_INVOICE_CODE";
   "QPAY_CALLBACK_URL"].

Definition not_set_message (name : string) : string :=
  "required environment variable " +:+ name +:+ " is not set".

(** The entries of [required] in the order of the map literal. *)
Definition canonical_order (cfg : Config) : list (string * string) :=
  [("QPAY_BASE_URL", BaseURL cfg); ("QPAY_USERNAME", Username cfg);
   ("QPAY_PASSWORD", Password cfg); ("QPAY_INVOICE_CODE", InvoiceCode cfg);
   ("QPAY_CALLBACK_URL", CallbackURL cfg)].


(** * A concrete remote side, for evaluating the code

    The server of the repository's tests: [refresh_out] answers
    [/v2/auth/refresh], [token_out] answers [/v2/auth/token] and [api_out]
    every other path.  A body is decoded by table; the bodies are written
    without the quote character. *)

Definition test_cfg : Config :=
  mkConfig "http://127.0.0.1" "testuser" "testpass" "TEST_INVOICE"
           "https://example.com/callback".

Definition token_abc : TokenResponse :=
  mkTokenResponse "Bearer" 1700007200 "refresh-xyz" "access-abc" 1700003600
                  "" "" "".

Definition token_new : TokenResponse :=
  mkTokenResponse "Bearer" 1700017200 "refresh-new" "access-new" 1700013600
                  "" "" "".

Definition test_env (refresh_out token_out api_out : HttpOutcome) : Env := {|
  newRequest := fun _ _ => None;
  http_do := fun _ req =>
    if String.eqb (req_url req) "http://127.0.0.1/v2/auth/refresh" then refresh_out
    else if String.eqb (req_url req) "http://127.0.0.1/v2/auth/token" then token_out
    else api_out;
  StatusText := fun status =>
    if status =? 400 then "Bad Request"
    else if status =? 401 then "Unauthorized"
    else if status =? 404 then "Not Found"
    else if status =? 500 then "Internal Server Error"
    else "";
  json_error_fields := fun body =>
    if String.eqb body "{error:invalid_grant}" then (Some "invalid_grant", None)
    else if String.eqb body "{error:AUTHENTICATION_FAILED,message:Invalid credentials}"
    then (Some "AUTHENTICATION_FAILED", Some "Invalid credentials")
    else if String.eqb body "{error:INVOICE_NOTFOUND,message:Invoice not found}"
    then (Some "INVOICE_NOTFOUND", Some "Invoice not found")
    else (None, None);
  json_token := fun body dst =>
    if String.eqb body "{access-abc}" then (token_abc, None)
    else if String.eqb body "{access-new}" then (token_new, None)
    else (dst, Some (ErrOther "invalid character"))
|}.

Definition ok_abc : HttpOutcome := Response 200 "{access-abc}".
Definition ok_new : HttpOutcome := Response 200 "{access-new}".
Definition refresh_401 : HttpOutcome := Response 401 "{error:invalid_grant}".
Definition auth_401 : HttpOutcome :=
  Response 401 "{error:AUTHENTICATION_FAILED,message:Invalid credentials}".
Definition plain_500 : HttpOutcome := Response 500 "Internal Server Error".
Definition api_400 : HttpOutcome :=
  Response 400 "{error:INVOICE_NOTFOUND,message:Invoice not found}".

(** A client holding [token_abc], at a time inside / after its validity. *)
Definition world_valid : World := mkWorld (stored token_abc) [] 1700000000.
Definition world_expired : World := mkWorld (stored token_abc) [] 1700003600.
Definition world_new : World := mkWorld emptyClient [] 1700000000.

Definition auth_401_error : error :=
  ErrQPay (Some (mkError 401 "AUTHENTICATION_FAILED" "Invalid credentials"
                   "{error:AUTHENTICATION_FAILED,message:Invalid credentials}")).


Definition api_400_error : Error :=
  mkError 400 "INVOICE_NOTFOUND" "Invoice not found"
          "{error:INVOICE_NOTFOUND,message:Invoice not found}".

(** An environment in which the password is not set. *)
Definition environ_no_password : gmap string string :=
  <["QPAY_BASE_URL" := "https://merchant.qpay.mn"]>
  (<["QPAY_USERNAME" := "testuser"]>
  (<["QPAY_INVOICE_CODE" := "INV_CODE"]>
  (<["QPAY_CALLBACK_URL" := "https://example.com/callback"]> ∅))).

(** A request and a response type for running the domain operations: the
    JSON text itself. *)
Definition text_Marshaler : Marshaler string := fun s => Ok s.
Definition text_Unmarshaler : Unmarshaler string :=
  {| go_zero := ""; json_Unmarshal := fun body _ => (body, None) |}.

(** A request that [json.Marshal] refuses, and a response that
    [json.Unmarshal] refuses. *)
Definition failing_Marshaler : Marshaler string :=
  fun _ => Fail (ErrOther "json: unsupported value").
Definition failing_Unmarshaler : Unmarshaler string :=
  {| go_zero := "";
     json_Unmarshal := fun _ dst => (dst, Some (ErrOther "invalid character")) |}.

(** A client whose token expires at the least int64, and a new client at
    the second [token_abc] expires. *)
Definition world_least_expiry : World :=
  mkWorld (mkClient "access-abc" "" (- 2 ^ 63) 0) [] 1700000000.
Definition world_new_late : World := mkWorld emptyClient [] 1700003600.

(** An environment in which neither the user name nor the password is set. *)
Definition environ_no_credentials : gmap string string :=
  <["QPAY_BASE_URL" := "https://merchant.qpay.mn"]>
  (<["QPAY_USERNAME" := ""]>
  (<["QPAY_INVOICE_CODE" := "INV_CODE"]>
  (<["QPAY_CALLBACK_URL" := "https://example.com/callback"]> ∅))).


(** * Lemmas on runs *)

Ltac unfold_m :=
  unfold bind, ret, emit, mu_Lock, mu_Unlock, time_Now_Unix, get_field, set_field,
    http_Do, extend, install in *.

Ltac norm_trace :=
  repeat rewrite <- app_assoc; cbn [app].

Lemma nonempty_true (s : string) : nonempty s = true <-> s <> "".
Proof.
  unfold nonempty. rewrite negb_true_iff. split.
  - intros H E. subst s. discriminate.
  - intros H. apply String.eqb_neq. exact H.
Qed.

Lemma nonempty_false (s : string) : nonempty s = false <-> s = "".
Proof.
  unfold nonempty. rewrite negb_false_iff. apply String.eqb_eq.
Qed.

(** Away from the lower end of [int64] the subtraction of the margin is
    the exact one; at the lower end it wraps to a large positive value. *)
Lemma sub64_exact (a : Z) :
  in_int64 a -> - 2 ^ 63 + tokenBufferSeconds <= a ->
  sub64 a tokenBufferSeconds = a - tokenBufferSeconds.
Proof.
  unfold in_int64, sub64, wrap64, tokenBufferSeconds. intros H L.
  rewrite Z.mod_small; lia.
Qed.

Lemma lt_sub64 (now a : Z) :
  in_int64 now -> in_int64 a ->
  now < a - tokenBufferSeconds -> now < sub64 a tokenBufferSeconds.
Proof.
  intros Hn Ha L. rewrite sub64_exact; [exact L|exact Ha|].
  unfold in_int64, tokenBufferSeconds in *. lia.
Qed.

Example sub64_wraps : sub64 (- 2 ^ 63) tokenBufferSeconds = 2 ^ 63 - 30.
Proof. reflexivity. Qed.

Lemma requests_app (a b : list Event) :
  requests (a ++ b) = requests a ++ requests b.
Proof. unfold requests. apply omap_app. Qed.

Lemma requests_prelude (c : Client) : requests (prelude c) = [].
Proof.
  unfold prelude. destruct (nonempty (accessToken c)), (nonempty (refreshToken c));
    reflexivity.
Qed.

Lemma requests_store_events : requests store_events = [].
Proof. reflexivity. Qed.

Lemma emitted_extend (w : World) (evs : list Event) (w' : World) :
  trace w' = trace w ++ evs -> emitted w w' = evs.
Proof.
  intros E. unfold emitted. rewrite E. apply drop_app_length.
Qed.

Section Runs.

Variable env : Env.
Variable cfg : Config.

Lemma storeToken_run {A} (token : TokenResponse) (x : A) (w : World) :
  (mu_Lock ;;; storeToken token ;;; mu_Unlock ;;; ret x) w = (x, install token w).
Proof.
  unfold storeToken. unfold_m. cbn. unfold store_events.
  f_equal. f_equal. norm_trace. reflexivity.
Qed.

Lemma doRefreshTokenHTTP_world (tok : string) (w : World) :
  (doRefreshTokenHTTP env cfg tok w).2 = extend w (refresh_sent env cfg tok).
Proof.
  unfold doRefreshTokenHTTP, refresh_sent, refreshRequest.
  destruct (newRequest env "POST" (BaseURL cfg +:+ "/v2/auth/refresh")).
  - unfold_m. cbn. rewrite app_nil_r. destruct w; reflexivity.
  - unfold_m. cbn.
    destruct (http_do env (requests (trace w)) _) as [e|e|status body]; try reflexivity.
    destruct (not_2xx status); try reflexivity.
    destruct (json_token env body zeroTokenResponse) as [t [e|]]; reflexivity.
Qed.

Lemma doRefreshTokenHTTP_history (tok : string) (w v : World) :
  requests (trace w) = requests (trace v) ->
  (doRefreshTokenHTTP env cfg tok w).1 = (doRefreshTokenHTTP env cfg tok v).1.
Proof.
  intros E. unfold doRefreshTokenHTTP.
  destruct (newRequest env "POST" (BaseURL cfg +:+ "/v2/auth/refresh")); [reflexivity|].
  unfold_m. cbn. rewrite E.
  destruct (http_do env (requests (trace v)) _) as [e|e|status body]; try reflexivity.
  destruct (not_2xx status); try reflexivity.
  destruct (json_token env body zeroTokenResponse) as [t [e|]]; reflexivity.
Qed.

Lemma getTokenRequest_world (w : World) :
  (getTokenRequest env cfg w).2 = extend w (token_sent env cfg).
Proof.
  unfold getTokenRequest, doBasicAuthRequest, token_sent, tokenRequest.
  destruct (newRequest env "POST" (BaseURL cfg +:+ "/v2/auth/token")).
  - unfold_m. cbn. rewrite app_nil_r. destruct w; reflexivity.
  - unfold_m. cbn.
    destruct (http_do env (requests (trace w)) _) as [e|e|status body]; try reflexivity.
    destruct (not_2xx status); try reflexivity.
    unfold decode_result.
    destruct (nonempty body); try reflexivity. cbn.
    destruct (json_token env body zeroTokenResponse) as [t [e|]]; reflexivity.
Qed.

Lemma getTokenRequest_history (w v : World) :
  requests (trace w) = requests (trace v) ->
  (getTokenRequest env cfg w).1 = (getTokenRequest env cfg v).1.
Proof.
  intros E. unfold getTokenRequest, doBasicAuthRequest.
  destruct (newRequest env "POST" (BaseURL cfg +:+ "/v2/auth/token")); [reflexivity|].
  unfold_m. cbn. rewrite E.
  destruct (http_do env (requests (trace v)) _) as [e|e|status body]; try reflexivity.
  destruct (not_2xx status); try reflexivity.
  unfold decode_result.
  destruct (nonempty body); try reflexivity. cbn.
  destruct (json_token env body zeroTokenResponse) as [t [e|]]; reflexivity.
Qed.

Lemma ensureToken_fullAuth_run (w : World) :
  ensureToken_fullAuth env cfg w =
  match (getTokenRequest env cfg w).1 with
  | Fail err =>
      (Some (ErrWrap "failed to get token: " err), extend w (token_sent env cfg))
  | Ok token => (None, install token (extend w (token_sent env cfg)))
  end.
Proof.
  unfold ensureToken_fullAuth. unfold bind at 1.
  rewrite <- getTokenRequest_world.
  destruct (getTokenRequest env cfg w) as [[token|err] w1]; cbn [fst snd].
  - apply storeToken_run.
  - reflexivity.
Qed.

Lemma access_check_run (now : Z) (w : World) :
  access_check now w =
  (access_fresh now (client w),
   extend w (EvRead FAccessToken ::
             if nonempty (accessToken (client w)) then [EvRead FExpiresAt] else [])).
Proof.
  unfold access_check, access_fresh. unfold_m. cbn.
  destruct (nonempty (accessToken (client w))); cbn.
  - f_equal. f_equal. norm_trace. reflexivity.
  - reflexivity.
Qed.

Lemma refresh_check_run (now : Z) (w : World) :
  refresh_check now w =
  (can_refresh now (client w),
   extend w (EvRead FRefreshToken ::
             if nonempty (refreshToken (client w)) then [EvRead FRefreshExpiresAt] else [])).
Proof.
  unfold refresh_check, can_refresh. unfold_m. cbn.
  destruct (nonempty (refreshToken (client w))); cbn.
  - f_equal. f_equal. norm_trace. reflexivity.
  - reflexivity.
Qed.

(** [ensureToken] on a fresh access token. *)
Lemma ensureToken_fresh_run (w : World) :
  access_fresh (clock w) (client w) = true ->
  ensureToken env cfg w =
  (None, extend w [EvLock; EvRead FAccessToken; EvRead FExpiresAt; EvUnlock]).
Proof.
  intros F. unfold ensureToken.
  unfold bind at 1. cbn [mu_Lock emit].
  unfold bind at 1. cbn [time_Now_Unix clock].
  unfold bind at 1. rewrite access_check_run. cbn [client clock].
  rewrite F.
  unfold access_fresh in F. apply andb_true_iff in F as [F _]. rewrite F.
  unfold_m. cbn. f_equal. f_equal. norm_trace. reflexivity.
Qed.

(** [ensureToken] on an access token that is not fresh. *)
Lemma ensureToken_stale_run (w : World) :
  access_fresh (clock w) (client w) = false ->
  ensureToken env cfg w =
  let w0 := extend w (prelude (client w)) in
  if can_refresh (clock w) (client w) then
    match (doRefreshTokenHTTP env cfg (refreshToken (client w)) w0).1 with
    | Ok token =>
        (None, install token (extend w0 (refresh_sent env cfg (refreshToken (client w)))))
    | Fail _ =>
        ensureToken_fullAuth env cfg
          (extend w0 (refresh_sent env cfg (refreshToken (client w))))
    end
  else ensureToken_fullAuth env cfg w0.
Proof.
  intros F. unfold ensureToken.
  unfold bind at 1. cbn [mu_Lock emit].
  unfold bind at 1. cbn [time_Now_Unix clock].
  unfold bind at 1. rewrite access_check_run. cbn [client clock].
  rewrite F.
  unfold bind at 1. rewrite refresh_check_run. cbn [extend client clock trace].
  unfold bind at 1. unfold get_field at 1. unfold bind at 1. cbn [emit client trace clock].
  unfold bind at 1. cbn [mu_Unlock emit].
  unfold extend. cbn [client trace clock].
  set (w0 := mkWorld (client w) (trace w ++ prelude (client w)) (clock w)).
  match goal with |- ?f ?W = _ => replace W with w0 end.
  2:{ unfold w0, prelude. f_equal. norm_trace. reflexivity. }
  cbv zeta. fold (extend w (prelude (client w))). fold w0.
  destruct (can_refresh (clock w) (client w)); [|reflexivity].
  unfold bind at 1.
  pose proof (doRefreshTokenHTTP_world (refreshToken (client w)) w0) as W.
  destruct (doRefreshTokenHTTP env cfg (refreshToken (client w)) w0) as [[token|err] w1];
    cbn [fst snd] in *; subst w1.
  - apply storeToken_run.
  - reflexivity.
Qed.

End Runs.

(** * The claims *)

Section CacheHit.

Variable env : Env.
Variable cfg : Config.

Lemma ensureToken_seq_fresh (times : list Z) (w : World) :
  accessToken (client w) <> "" ->
  Forall (fun t => t < sub64 (expiresAt (client w)) tokenBufferSeconds) times ->
  exists w', ensureToken_seq env cfg times w = (map (fun _ => None) times, w') /\
             client w' = client w /\ requests (emitted w w') = [] /\
             exists evs, trace w' = trace w ++ evs.
Proof.
  intros NE. revert w NE. induction times as [|t rest IH]; intros w NE F.
  - exists w. cbn. unfold emitted. rewrite drop_all.
    repeat split; try reflexivity. exists []. symmetry. apply app_nil_r.
  - inversion F as [|? ? Ht Hrest]; subst.
    cbn [ensureToken_seq]. unfold bind at 1. unfold at_time.
    rewrite ensureToken_fresh_run.
    2:{ cbn. unfold access_fresh. apply andb_true_iff. split.
        - apply nonempty_true. exact NE.
        - apply Z.ltb_lt. exact Ht. }
    set (w1 := extend _ _).
    destruct (IH w1 NE Hrest) as (w' & E & C & R & evs & T).
    unfold bind at 1. rewrite E. unfold ret. exists w'.
    split; [reflexivity|]. split; [exact C|].
    assert (T' : trace w' = trace w ++
              ([EvLock; EvRead FAccessToken; EvRead FExpiresAt; EvUnlock] ++ evs)).
    { rewrite T. unfold w1, extend. cbn. rewrite <- app_assoc. reflexivity. }
    split.
    + rewrite (emitted_extend _ _ _ T'). rewrite requests_app.
      rewrite (emitted_extend _ _ _ T) in R. rewrite R. reflexivity.
    + eexists. exact T'.
Qed.

(** The first call of a client that holds no token: one full
    authentication, no refresh. *)
Lemma ensureToken_empty_run (w : World) :
  client w = emptyClient ->
  ensureToken env cfg w =
  match (getTokenRequest env cfg w).1 with
  | Fail err =>
      (Some (ErrWrap "failed to get token: " err),
       extend w (prelude (client w) ++ token_sent env cfg))
  | Ok token =>
      (None, install token (extend w (prelude (client w) ++ token_sent env cfg)))
  end.
Proof.
  intros E.
  rewrite ensureToken_stale_run by (rewrite E; reflexivity).
  cbv zeta. replace (can_refresh (clock w) (client w)) with false
    by (rewrite E; reflexivity).
  rewrite ensureToken_fullAuth_run.
  rewrite (getTokenRequest_history env cfg _ w).
  2:{ unfold extend. cbn [trace]. rewrite requests_app, requests_prelude.
      apply app_nil_r. }
  destruct ((getTokenRequest env cfg w).1); unfold install, extend;
    cbn [client trace clock]; rewrite <- !app_assoc; reflexivity.
Qed.

Lemma requests_token_sent_length :
  (length (requests (token_sent env cfg)) <= 1)%nat.
Proof. unfold token_sent. destruct (newRequest env _ _); cbn; lia. Qed.

End CacheHit.

(** C2: when the stored access token is non-empty and the clock is strictly
    below the stored expiry minus the 30 second margin (the subtraction being
    the one of int64), [ensureToken] returns nil, sends no request and leaves
    the four token fields as they were; any sequence of calls at times that
    all lie in that window returns nil every time, leaves the fields
    unchanged and sends no request at all; and when a client that holds no
    token makes a first call and the later calls fall in the window of the
    token this first call stored, the whole sequence sends the requests of
    the first call only, which is at most one. *)
Theorem ensureToken_cache_hit (env : Env) (cfg : Config) (w : World) (times : list Z) :
  accessToken (client w) <> "" ->
  clock w < sub64 (expiresAt (client w)) tokenBufferSeconds ->
  Forall (fun t => t < sub64 (expiresAt (client w)) tokenBufferSeconds) times ->
  let '(err, w1) := ensureToken env cfg w in
  let '(errs, w2) := ensureToken_seq env cfg times w in
  (err = None /\ requests (emitted w w1) = [] /\ client w1 = client w) /\
  (errs = map (fun _ => None) times /\ client w2 = client w /\
   requests (emitted w w2) = [] /\
   (length (requests (emitted w w2)) <= 1)%nat) /\
  (forall (w0 : World) (t0 : Z) (later : list Z),
     client w0 = emptyClient ->
     let first := at_time t0 (ensureToken env cfg) w0 in
     let all := ensureToken_seq env cfg (t0 :: later) w0 in
     accessToken (client first.2) <> "" ->
     Forall (fun t => t < sub64 (expiresAt (client first.2)) tokenBufferSeconds)
            later ->
     all.1 = first.1 :: map (fun _ => None) later /\
     requests (emitted w0 all.2) = requests (emitted w0 first.2) /\
     (length (requests (emitted w0 all.2)) <= 1)%nat).
Proof.
  intros NE Hnow Htimes.
  rewrite ensureToken_fresh_run.
  2:{ unfold access_fresh. apply andb_true_iff. split.
      - apply nonempty_true. exact NE.
      - apply Z.ltb_lt. exact Hnow. }
  destruct (ensureToken_seq_fresh env cfg times w NE Htimes) as (w' & E & C & R & _).
  rewrite E. split; [|split].
  - split; [reflexivity|]. split; [|reflexivity].
    erewrite emitted_extend; [|reflexivity]. reflexivity.
  - rewrite R. repeat split; try assumption. cbn. lia.
  - intros w0 t0 later E0. cbv zeta.
    set (w0t := mkWorld (client w0) (trace w0) t0).
    change (at_time t0 (ensureToken env cfg) w0) with (ensureToken env cfg w0t).
    assert (F : exists evs,
               trace (ensureToken env cfg w0t).2 = trace w0 ++ evs /\
               (length (requests evs) <= 1)%nat).
    { rewrite (ensureToken_empty_run env cfg w0t E0).
      destruct ((getTokenRequest env cfg w0t).1).
      - exists (prelude (client w0t) ++ token_sent env cfg ++ store_events). split.
        + unfold install, extend. cbn [snd trace]. rewrite <- !app_assoc. reflexivity.
        + rewrite !requests_app, requests_prelude, requests_store_events, app_nil_r.
          apply requests_token_sent_length.
      - exists (prelude (client w0t) ++ token_sent env cfg). split.
        + reflexivity.
        + rewrite !requests_app, requests_prelude. apply requests_token_sent_length. }
    destruct (ensureToken env cfg w0t) as [e0 w1] eqn:E1. cbn [fst snd] in *.
    destruct F as (evs & T & Len).
    intros NE1 Hlater.
    destruct (ensureToken_seq_fresh env cfg later w1 NE1 Hlater)
      as (w2 & E2 & _ & R2 & evs2 & T2).
    assert (ALL : ensureToken_seq env cfg (t0 :: later) w0 =
                  (e0 :: map (fun _ => None) later, w2)).
    { cbn [ensureToken_seq]. unfold bind at 1. unfold at_time. fold w0t.
      rewrite E1. unfold bind at 1. rewrite E2. reflexivity. }
    rewrite ALL. cbn [fst snd].
    assert (T02 : trace w2 = trace w0 ++ evs ++ evs2).
    { rewrite T2, T, <- app_assoc. reflexivity. }
    rewrite (emitted_extend _ _ _ T02), (emitted_extend _ _ _ T).
    rewrite (emitted_extend _ _ _ T2) in R2.
    rewrite requests_app, R2, app_nil_r.
    repeat split. exact Len.
Qed.

Lemma ensureToken_cache_hit_witness :
  let env := test_env refresh_401 ok_abc api_400 in
  let '(err, w1) := ensureToken env test_cfg world_valid in
  let '(errs, w2) := ensureToken_seq env test_cfg [1700000001; 1700003569] world_valid in
  (err = None /\ requests (emitted world_valid w1) = [] /\
   client w1 = client world_valid) /\
  (errs = map (fun _ => None) [1700000001; 1700003569] /\
   client w2 = client world_valid /\
   requests (emitted world_valid w2) = [] /\
   (length (requests (emitted world_valid w2)) <= 1)%nat) /\
  (forall (w0 : World) (t0 : Z) (later : list Z),
     client w0 = emptyClient ->
     let first := at_time t0 (ensureToken env test_cfg) w0 in
     let all := ensureToken_seq env test_cfg (t0 :: later) w0 in
     accessToken (client first.2) <> "" ->
     Forall (fun t => t < sub64 (expiresAt (client first.2)) tokenBufferSeconds)
            later ->
     all.1 = first.1 :: map (fun _ => None) later /\
     requests (emitted w0 all.2) = requests (emitted w0 first.2) /\
     (length (requests (emitted w0 all.2)) <= 1)%nat).
Proof.
  cbv zeta.
  apply (ensureToken_cache_hit (test_env refresh_401 ok_abc api_400) test_cfg
           world_valid [1700000001; 1700003569]).
  - discriminate.
  - vm_compute. reflexivity.
  - repeat constructor.
Defined.

(** The scenarios of the repository's tests, run on the model. *)

(** A new client authenticates once; a second call right after sends
    nothing more. *)
Example scenario_first_call_then_cache_hit :
  let env := test_env refresh_401 ok_abc api_400 in
  let '(errs, w') := ensureToken_seq env test_cfg [1700000000; 1700000000] world_new in
  errs = [None; None] /\ client w' = stored token_abc /\
  requests (trace w') = [tokenRequest test_cfg].
Proof. vm_compute. repeat split; reflexivity. Qed.

(** An expired access token and no refresh token: full authentication, no
    refresh call. *)
Example scenario_expired_without_refresh_token :
  let env := test_env refresh_401 ok_new api_400 in
  let w := mkWorld (mkClient "access-old" "" 1699999900 0) [] 1700000000 in
  let '(err, w') := ensureToken env test_cfg w in
  err = None /\ client w' = stored token_new /\
  requests (trace w') = [tokenRequest test_cfg].
Proof. vm_compute. repeat split; reflexivity. Qed.

(** A refresh answered 401 is followed by one full authentication, whose
    token is stored. *)
Example scenario_refresh_401_then_full_auth :
  let env := test_env refresh_401 ok_new api_400 in
  let '(err, w') := ensureToken env test_cfg world_expired in
  err = None /\ client w' = stored token_new /\
  requests (trace w') = [refreshRequest test_cfg "refresh-xyz"; tokenRequest test_cfg].
Proof. vm_compute. repeat split; reflexivity. Qed.

Section Fallback.

Variable env : Env.
Variable cfg : Config.

Lemma access_fresh_false (now : Z) (c : Client) :
  accessToken c = "" \/ now >= sub64 (expiresAt c) tokenBufferSeconds ->
  access_fresh now c = false.
Proof.
  unfold access_fresh. intros [E|G].
  - apply nonempty_false in E. rewrite E. reflexivity.
  - apply andb_false_iff. right. apply Z.ltb_ge. lia.
Qed.

Lemma can_refresh_true (now : Z) (c : Client) :
  refreshToken c <> "" ->
  now < sub64 (refreshExpiresAt c) tokenBufferSeconds ->
  can_refresh now c = true.
Proof.
  intros NE L. unfold can_refresh. apply andb_true_iff. split.
  - apply nonempty_true. exact NE.
  - apply Z.ltb_lt. exact L.
Qed.

(** The result of a successful refresh exchange. *)
Lemma doRefreshTokenHTTP_ok (tok : string) (w : World) (status : Z) (body : string)
    (token : TokenResponse) :
  newRequest env "POST" (BaseURL cfg +:+ "/v2/auth/refresh") = None ->
  http_do env (requests (trace w)) (refreshRequest cfg tok) = Response status body ->
  200 <= status < 300 ->
  json_token env body zeroTokenResponse = (token, None) ->
  (doRefreshTokenHTTP env cfg tok w).1 = Ok token.
Proof.
  intros N H S J. unfold doRefreshTokenHTTP. rewrite N.
  unfold_m. cbn. unfold refreshRequest in H. rewrite H.
  replace (not_2xx status) with false.
  2:{ symmetry. unfold not_2xx. apply orb_false_iff. split.
      - apply Z.ltb_ge. lia.
      - rewrite Z.geb_leb. apply Z.leb_gt. lia. }
  rewrite J. reflexivity.
Qed.

End Fallback.

(** C3: when the access token fails its freshness test while the stored
    refresh token is non-empty and the clock is below its expiry minus the
    margin, and the refresh exchange succeeds (the request can be built, the
    answer is 2xx and decodes to [token]), [ensureToken] returns nil, the only
    request it sends is POST /v2/auth/refresh with the stored refresh token as
    bearer credential (so no request to /v2/auth/token), and the four token
    fields are those of [token]. *)
Theorem ensureToken_refresh_preferred (env : Env) (cfg : Config) (w : World)
    (status : Z) (body : string) (token : TokenResponse) :
  accessToken (client w) = "" \/
    clock w >= sub64 (expiresAt (client w)) tokenBufferSeconds ->
  refreshToken (client w) <> "" ->
  clock w < sub64 (refreshExpiresAt (client w)) tokenBufferSeconds ->
  newRequest env "POST" (BaseURL cfg +:+ "/v2/auth/refresh") = None ->
  http_do env (requests (trace w))
    (mkRequest "POST" (BaseURL cfg +:+ "/v2/auth/refresh") None
               (Bearer (refreshToken (client w))) None) = Response status body ->
  200 <= status < 300 ->
  json_token env body zeroTokenResponse = (token, None) ->
  let '(err, w') := ensureToken env cfg w in
  err = None /\
  requests (emitted w w') =
    [mkRequest "POST" (BaseURL cfg +:+ "/v2/auth/refresh") None
               (Bearer (refreshToken (client w))) None] /\
  client w' =
    mkClient (AccessToken token) (RefreshToken token)
             (ExpiresIn token) (RefreshExpiresIn token).
Proof.
  intros Stale NE L N H S J.
  rewrite ensureToken_stale_run by (apply access_fresh_false; exact Stale).
  cbv zeta. rewrite (can_refresh_true _ _ NE L).
  set (w0 := extend w (prelude (client w))).
  assert (R0 : requests (trace w0) = requests (trace w)).
  { unfold w0, extend. cbn [trace]. rewrite requests_app, requests_prelude.
    apply app_nil_r. }
  rewrite (doRefreshTokenHTTP_ok env cfg _ w0 status body token N); try assumption.
  2:{ rewrite R0. exact H. }
  split; [reflexivity|]. split; [|reflexivity].
  erewrite emitted_extend.
  2:{ unfold install, w0, extend. cbn [trace]. rewrite <- !app_assoc. reflexivity. }
  rewrite !requests_app, requests_prelude, requests_store_events.
  unfold refresh_sent. rewrite N. reflexivity.
Qed.

Lemma ensureToken_refresh_preferred_witness :
  let '(err, w') := ensureToken (test_env ok_new auth_401 api_400) test_cfg world_expired in
  err = None /\
  requests (emitted world_expired w') =
    [mkRequest "POST" (BaseURL test_cfg +:+ "/v2/auth/refresh") None
               (Bearer (refreshToken (client world_expired))) None] /\
  client w' =
    mkClient (AccessToken token_new) (RefreshToken token_new)
             (ExpiresIn token_new) (RefreshExpiresIn token_new).
Proof.
  apply (ensureToken_refresh_preferred (test_env ok_new auth_401 api_400) test_cfg
           world_expired 200 "{access-new}" token_new).
  - right. vm_compute. discriminate.
  - discriminate.
  - vm_compute. reflexivity.
  - reflexivity.
  - reflexivity.
  - lia.
  - reflexivity.
Defined.

(** C1: when the access token fails its freshness test, a refresh is
    attempted (refresh token non-empty and inside its window) and the refresh
    call fails with whatever error [e], [ensureToken] goes on to one run of
    [getTokenRequest]: the requests it sends are those of the refresh attempt
    followed by those of that single full authentication (exactly one request
    to /v2/auth/token whenever that request can be built); when the full
    authentication yields [token], [ensureToken] returns nil with the fields of
    [token] stored, and it returns an error only when the full authentication
    fails, the error being that failure wrapped, never [e]. *)
Theorem ensureToken_refresh_fallback (env : Env) (cfg : Config) (w : World) (e : error) :
  accessToken (client w) = "" \/
    clock w >= sub64 (expiresAt (client w)) tokenBufferSeconds ->
  refreshToken (client w) <> "" ->
  clock w < sub64 (refreshExpiresAt (client w)) tokenBufferSeconds ->
  (doRefreshTokenHTTP env cfg (refreshToken (client w)) w).1 = Fail e ->
  let w1 := (doRefreshTokenHTTP env cfg (refreshToken (client w)) w).2 in
  let '(err, w') := ensureToken env cfg w in
  requests (emitted w w') =
    requests (emitted w w1) ++ requests (emitted w1 (getTokenRequest env cfg w1).2) /\
  (newRequest env "POST" (BaseURL cfg +:+ "/v2/auth/token") = None ->
   requests (emitted w1 (getTokenRequest env cfg w1).2) = [tokenRequest cfg]) /\
  match (getTokenRequest env cfg w1).1 with
  | Ok token => err = None /\ client w' = stored token
  | Fail e' => err = Some (ErrWrap "failed to get token: " e') /\ client w' = client w
  end.
Proof.
  intros Stale NE L F. cbv zeta.
  rewrite ensureToken_stale_run by (apply access_fresh_false; exact Stale).
  cbv zeta. rewrite (can_refresh_true _ _ NE L).
  set (rt := refreshToken (client w)) in *.
  set (w0 := extend w (prelude (client w))).
  assert (R0 : requests (trace w0) = requests (trace w)).
  { unfold w0, extend. cbn [trace]. rewrite requests_app, requests_prelude.
    apply app_nil_r. }
  rewrite (doRefreshTokenHTTP_history env cfg rt w0 w R0), F.
  rewrite ensureToken_fullAuth_run.
  rewrite doRefreshTokenHTTP_world, getTokenRequest_world.
  set (w1 := extend w (refresh_sent env cfg rt)).
  set (w1' := extend w0 (refresh_sent env cfg rt)).
  assert (R1 : requests (trace w1') = requests (trace w1)).
  { unfold w1', w1, extend. cbn [trace]. rewrite !requests_app. rewrite <- R0.
    reflexivity. }
  rewrite (getTokenRequest_history env cfg w1' w1 R1).
  assert (Em1 : emitted w w1 = refresh_sent env cfg rt).
  { apply emitted_extend. reflexivity. }
  assert (Em2 : emitted w1 (extend w1 (token_sent env cfg)) = token_sent env cfg).
  { apply emitted_extend. reflexivity. }
  rewrite Em1, Em2.
  assert (Req : forall evs,
             requests (emitted w (extend w1' (token_sent env cfg ++ evs))) =
             requests (refresh_sent env cfg rt) ++ requests (token_sent env cfg)
               ++ requests evs).
  { intros evs. erewrite emitted_extend.
    2:{ unfold w1', w0, extend. cbn [trace]. rewrite <- !app_assoc. reflexivity. }
    rewrite !requests_app, requests_prelude. reflexivity. }
  destruct ((getTokenRequest env cfg w1).1) as [token|e'].
  - split; [|split; [|split; reflexivity]].
    + replace (install token (extend w1' (token_sent env cfg)))
        with (mkWorld (stored token)
                (trace (extend w1' (token_sent env cfg ++ store_events))) (clock w)).
      2:{ unfold install, extend. cbn [trace client clock].
          rewrite <- !app_assoc. reflexivity. }
      change (emitted w {| client := stored token;
                           trace := trace (extend w1' (token_sent env cfg ++ store_events));
                           clock := clock w |})
        with (emitted w (extend w1' (token_sent env cfg ++ store_events))).
      rewrite Req, requests_store_events, app_nil_r. reflexivity.
    + intros N. unfold token_sent. rewrite N. reflexivity.
  - split; [|split; [|split; reflexivity]].
    + specialize (Req []). rewrite !app_nil_r in Req. exact Req.
    + intros N. unfold token_sent. rewrite N. reflexivity.
Qed.

Lemma ensureToken_refresh_fallback_witness :
  let env := test_env refresh_401 ok_new api_400 in
  let w := world_expired in
  let w1 := (doRefreshTokenHTTP env test_cfg (refreshToken (client w)) w).2 in
  let '(err, w') := ensureToken env test_cfg w in
  requests (emitted w w') =
    requests (emitted w w1) ++ requests (emitted w1 (getTokenRequest env test_cfg w1).2) /\
  (newRequest env "POST" (BaseURL test_cfg +:+ "/v2/auth/token") = None ->
   requests (emitted w1 (getTokenRequest env test_cfg w1).2) = [tokenRequest test_cfg]) /\
  match (getTokenRequest env test_cfg w1).1 with
  | Ok token => err = None /\ client w' = stored token
  | Fail e' => err = Some (ErrWrap "failed to get token: " e') /\ client w' = client w
  end.
Proof.
  cbv zeta.
  apply (ensureToken_refresh_fallback (test_env refresh_401 ok_new api_400) test_cfg
           world_expired
           (ErrQPay (Some (mkError 401 "invalid_grant" "" "{error:invalid_grant}")))).
  - right. vm_compute. discriminate.
  - discriminate.
  - vm_compute. reflexivity.
  - vm_compute. reflexivity.
Defined.

Section NonCorruption.

Variable env : Env.
Variable cfg : Config.

Lemma can_refresh_false (now : Z) (c : Client) :
  refreshToken c = "" \/ now >= sub64 (refreshExpiresAt c) tokenBufferSeconds ->
  can_refresh now c = false.
Proof.
  unfold can_refresh. intros [E|G].
  - apply nonempty_false in E. rewrite E. reflexivity.
  - apply andb_false_iff. right. apply Z.ltb_ge. lia.
Qed.

Lemma GetToken_run (w : World) :
  GetToken env cfg w =
  match (getTokenRequest env cfg w).1 with
  | Fail err => (Fail err, extend w (token_sent env cfg))
  | Ok token => (Ok token, install token (extend w (token_sent env cfg)))
  end.
Proof.
  unfold GetToken. unfold bind at 1. rewrite <- getTokenRequest_world.
  destruct (getTokenRequest env cfg w) as [[token|err] w1]; cbn [fst snd].
  - apply storeToken_run.
  - reflexivity.
Qed.

Lemma Client_RefreshToken_run (w : World) :
  let rt := refreshToken (client w) in
  let w0 := extend w refresh_prelude in
  Client_RefreshToken env cfg w =
  match (doRefreshTokenHTTP env cfg rt w).1 with
  | Fail err => (Fail err, extend w0 (refresh_sent env cfg rt))
  | Ok token => (Ok token, install token (extend w0 (refresh_sent env cfg rt)))
  end.
Proof.
  cbv zeta. unfold Client_RefreshToken.
  unfold bind at 1. cbn [mu_Lock emit].
  unfold bind at 1. unfold get_field at 1. unfold bind at 1. cbn [emit client trace clock].
  unfold bind at 1. cbn [mu_Unlock emit client trace clock].
  set (w0 := mkWorld (client w) (trace w ++ refresh_prelude) (clock w)).
  match goal with |- ?f ?W = _ => replace W with w0 end.
  2:{ unfold w0, refresh_prelude. f_equal. norm_trace. reflexivity. }
  assert (R0 : requests (trace w0) = requests (trace w)).
  { unfold w0. cbn [trace]. rewrite requests_app. cbn. apply app_nil_r. }
  rewrite <- (doRefreshTokenHTTP_history env cfg (refreshToken (client w)) w0 w R0).
  change (extend w refresh_prelude) with w0.
  rewrite <- doRefreshTokenHTTP_world.
  unfold bind at 1.
  destruct (doRefreshTokenHTTP env cfg (refreshToken (client w)) w0) as [[token|err] w1];
    cbn [fst snd].
  - apply (storeToken_run token (Ok token) w1).
  - reflexivity.
Qed.

(** Every way [ensureToken] can end. *)
Lemma ensureToken_outcome (w : World) :
  (exists evs, ensureToken env cfg w = (None, extend w evs)) \/
  (exists token evs,
     ensureToken env cfg w = (None, install token (extend w evs))) \/
  (exists e evs,
     ensureToken env cfg w = (Some (ErrWrap "failed to get token: " e), extend w evs)).
Proof.
  destruct (access_fresh (clock w) (client w)) eqn:F.
  - left. eexists. apply ensureToken_fresh_run. exact F.
  - right. rewrite (ensureToken_stale_run env cfg w F). cbv zeta.
    set (w0 := extend w (prelude (client w))).
    assert (X : forall evs v, v = extend w0 evs ->
      (exists token evs', ensureToken_fullAuth env cfg v =
                          (None, install token (extend w evs'))) \/
      (exists e evs', ensureToken_fullAuth env cfg v =
                      (Some (ErrWrap "failed to get token: " e), extend w evs'))).
    { intros evs v ->. rewrite ensureToken_fullAuth_run.
      destruct ((getTokenRequest env cfg (extend w0 evs)).1) as [token|e].
      - left. exists token. eexists. f_equal. f_equal.
        unfold w0, extend. cbn [client trace clock]. rewrite <- !app_assoc. reflexivity.
      - right. exists e. eexists. f_equal.
        unfold w0, extend. cbn [client trace clock]. rewrite <- !app_assoc. reflexivity. }
    destruct (can_refresh (clock w) (client w)).
    + destruct ((doRefreshTokenHTTP env cfg (refreshToken (client w)) w0).1) as [token|e0].
      * left. exists token. eexists. f_equal. f_equal.
        unfold w0, extend. cbn [client trace clock]. rewrite <- !app_assoc. reflexivity.
      * eapply X. reflexivity.
    + apply (X []). unfold extend. rewrite app_nil_r. destruct w0; reflexivity.
Qed.


(** A full authentication yields a token only from an answer inside
    [200,300): decoded without error, or with an empty body, which
    [doBasicAuthRequest] does not decode and which leaves the zero token. *)
Lemma getTokenRequest_ok_inv (w : World) (token : TokenResponse) :
  (getTokenRequest env cfg w).1 = Ok token ->
  exists status body,
    http_do env (requests (trace w)) (tokenRequest cfg) = Response status body /\
    200 <= status < 300 /\
    ((body = "" /\ token = zeroTokenResponse) \/
     json_token env body zeroTokenResponse = (token, None)).
Proof.
  unfold getTokenRequest, doBasicAuthRequest, tokenRequest.
  destruct (newRequest env "POST" (BaseURL cfg +:+ "/v2/auth/token")); [discriminate|].
  unfold_m. cbn.
  destruct (http_do env (requests (trace w)) _) as [e|e|status body]; try discriminate.
  destruct (not_2xx status) eqn:S; [discriminate|].
  intros H. exists status, body. split; [reflexivity|]. split.
  { unfold not_2xx in S. apply orb_false_iff in S as [S1 S2].
    apply Z.ltb_ge in S1. rewrite Z.geb_leb in S2. apply Z.leb_gt in S2. lia. }
  unfold decode_result in H. destruct (nonempty body) eqn:NE.
  - right. cbn in H.
    destruct (json_token env body zeroTokenResponse) as [t [e|]]; cbn in H;
      [discriminate|]. injection H as ->. reflexivity.
  - left. apply nonempty_false in NE. cbn in H. injection H as <-.
    split; [exact NE|reflexivity].
Qed.

(** A refresh yields a token only from an answer inside [200,300) that
    decodes without error. *)
Lemma doRefreshTokenHTTP_ok_inv (tok : string) (w : World) (token : TokenResponse) :
  (doRefreshTokenHTTP env cfg tok w).1 = Ok token ->
  exists status body,
    http_do env (requests (trace w)) (refreshRequest cfg tok) = Response status body /\
    200 <= status < 300 /\
    json_token env body zeroTokenResponse = (token, None).
Proof.
  unfold doRefreshTokenHTTP, refreshRequest.
  destruct (newRequest env "POST" (BaseURL cfg +:+ "/v2/auth/refresh")); [discriminate|].
  unfold_m. cbn.
  destruct (http_do env (requests (trace w)) _) as [e|e|status body]; try discriminate.
  destruct (not_2xx status) eqn:S; [discriminate|].
  intros H. exists status, body. split; [reflexivity|]. split.
  { unfold not_2xx in S. apply orb_false_iff in S as [S1 S2].
    apply Z.ltb_ge in S1. rewrite Z.geb_leb in S2. apply Z.leb_gt in S2. lia. }
  cbn in H. destruct (json_token env body zeroTokenResponse) as [t [e|]]; cbn in H;
    [discriminate|]. injection H as ->. reflexivity.
Qed.

End NonCorruption.



Section Expiry.

Variable env : Env.
Variable cfg : Config.

(** On a stale access token the steps of [ensureToken] start with the
    first critical section, which reads the refresh token. *)
Lemma ensureToken_stale_trace (w : World) :
  access_fresh (clock w) (client w) = false ->
  exists evs, trace (ensureToken env cfg w).2 = trace w ++ prelude (client w) ++ evs.
Proof.
  intros F. rewrite (ensureToken_stale_run env cfg w F). cbv zeta.
  set (w0 := extend w (prelude (client w))).
  assert (X : forall evs,
    exists evs', trace (ensureToken_fullAuth env cfg (extend w0 evs)).2 =
                 trace w ++ prelude (client w) ++ evs').
  { intros evs. rewrite ensureToken_fullAuth_run.
    destruct ((getTokenRequest env cfg (extend w0 evs)).1) as [token|e];
      eexists; unfold install, w0, extend; cbn [snd trace];
      rewrite <- !app_assoc; reflexivity. }
  destruct (can_refresh (clock w) (client w)).
  - destruct ((doRefreshTokenHTTP env cfg (refreshToken (client w)) w0).1) as [token|e0].
    + eexists. unfold install, w0, extend. cbn [snd trace].
      rewrite <- !app_assoc. reflexivity.
    + apply X.
  - destruct (X []) as (evs' & E). exists evs'. rewrite <- E.
    unfold extend. rewrite app_nil_r. destruct w0; reflexivity.
Qed.

Lemma access_fresh_spec (now : Z) (c : Client) :
  access_fresh now c = true <->
  accessToken c <> "" /\ now < sub64 (expiresAt c) tokenBufferSeconds.
Proof.
  unfold access_fresh. rewrite andb_true_iff, nonempty_true, Z.ltb_lt. reflexivity.
Qed.

Lemma can_refresh_spec (now : Z) (c : Client) :
  can_refresh now c = true <->
  refreshToken c <> "" /\ now < sub64 (refreshExpiresAt c) tokenBufferSeconds.
Proof.
  unfold can_refresh. rewrite andb_true_iff, nonempty_true, Z.ltb_lt. reflexivity.
Qed.

End Expiry.

(** C7: [expires_in] and [refresh_expires_in] are absolute epoch seconds.
    Whatever the clock reads when [GetToken] obtains [token], the stored
    [expiresAt] and [refreshExpiresAt] are the two fields of the response as
    they came (nothing is added to them); each of the two freshness tests
    holds exactly when the token is non-empty and the clock is below the
    stored value minus the 30 second margin (int64 subtraction); and a later
    [ensureToken] at clock [t] is a cache hit (its steps are the locked reads
    of the access token and its expiry, nothing else) exactly when the access
    token is non-empty and [t] is below [expires_in] minus the margin. *)
Theorem expires_in_is_absolute (env : Env) (cfg : Config) (w : World)
    (token : TokenResponse) (t : Z) :
  (GetToken env cfg w).1 = Ok token ->
  let w1 := (GetToken env cfg w).2 in
  (expiresAt (client w1) = ExpiresIn token /\
   refreshExpiresAt (client w1) = RefreshExpiresIn token) /\
  (forall now v,
     ((access_check now v).1 = true <->
      accessToken (client v) <> "" /\
      now < sub64 (expiresAt (client v)) tokenBufferSeconds) /\
     ((refresh_check now v).1 = true <->
      refreshToken (client v) <> "" /\
      now < sub64 (refreshExpiresAt (client v)) tokenBufferSeconds)) /\
  (emitted w1 (at_time t (ensureToken env cfg) w1).2 =
     [EvLock; EvRead FAccessToken; EvRead FExpiresAt; EvUnlock] <->
   AccessToken token <> "" /\ t < sub64 (ExpiresIn token) tokenBufferSeconds).
Proof.
  intros G. cbv zeta.
  rewrite GetToken_run in *.
  destruct ((getTokenRequest env cfg w).1) as [token'|e]; cbn [fst snd] in *;
    [|discriminate].
  injection G as ->.
  split; [split; reflexivity|]. split.
  - intros now v. rewrite access_check_run, refresh_check_run. cbn [fst].
    split; [apply access_fresh_spec | apply can_refresh_spec].
  - set (w1 := install token _). unfold at_time.
    set (w1t := mkWorld (client w1) (trace w1) t).
    assert (Em : forall w2, emitted w1 w2 = emitted w1t w2) by reflexivity.
    rewrite Em.
    change (AccessToken token) with (accessToken (client w1t)).
    change (ExpiresIn token) with (expiresAt (client w1t)).
    change t with (clock w1t) at 1.
    rewrite <- access_fresh_spec.
    destruct (access_fresh (clock w1t) (client w1t)) eqn:F.
    + rewrite (ensureToken_fresh_run env cfg w1t F).
      split; [reflexivity|]. intros _. apply emitted_extend. reflexivity.
    + split; [|discriminate]. intros E. exfalso.
      destruct (ensureToken_stale_trace env cfg w1t F) as (evs & T).
      rewrite (emitted_extend _ _ _ T) in E.
      unfold prelude in E.
      destruct (nonempty (accessToken (client w1t)));
        destruct (nonempty (refreshToken (client w1t))); cbn in E; discriminate.
Qed.

Lemma expires_in_is_absolute_witness :
  let env := test_env refresh_401 ok_abc api_400 in
  let w1 := (GetToken env test_cfg world_new).2 in
  (expiresAt (client w1) = ExpiresIn token_abc /\
   refreshExpiresAt (client w1) = RefreshExpiresIn token_abc) /\
  (forall now v,
     ((access_check now v).1 = true <->
      accessToken (client v) <> "" /\
      now < sub64 (expiresAt (client v)) tokenBufferSeconds) /\
     ((refresh_check now v).1 = true <->
      refreshToken (client v) <> "" /\
      now < sub64 (refreshExpiresAt (client v)) tokenBufferSeconds)) /\
  (emitted w1 (at_time 1700003569 (ensureToken env test_cfg) w1).2 =
     [EvLock; EvRead FAccessToken; EvRead FExpiresAt; EvUnlock] <->
   AccessToken token_abc <> "" /\
   1700003569 < sub64 (ExpiresIn token_abc) tokenBufferSeconds).
Proof.
  cbv zeta.
  apply (expires_in_is_absolute (test_env refresh_401 ok_abc api_400) test_cfg
           world_new token_abc 1700003569).
  vm_compute. reflexivity.
Defined.

(** ** errors.go *)

(** C10 as stated does not hold: an interface value that holds a nil
    pointer to [Error] is itself non-nil and has the dynamic type of the
    assertion, and the function returns that nil pointer with [true]. *)
Lemma IsQPayError_nil_pointer :
  IsQPayError (Some (ErrQPay None)) = (None, true) /\
  ~ (forall err : option error,
       (exists q, IsQPayError err = (Some q, true)) <->
       (exists p, err = Some (ErrQPay p))).
Proof.
  split; [reflexivity|].
  intros H. destruct (proj2 (H (Some (ErrQPay None)))) as (q & E).
  - exists None. reflexivity.
  - discriminate E.
Qed.

(** C10 (amended): [IsQPayError] is a direct type assertion.  It returns
    [true] exactly when [err] is non-nil with the dynamic type pointer to
    [Error], and then returns the very pointer [err] holds, which is non-nil
    exactly when that pointer is; for the nil error, for every other dynamic
    type and for every error that wraps another one (as [fmt.Errorf] with
    the wrapping verb builds them) it returns (nil, false). *)
Theorem IsQPayError_type_assertion (err : option error) :
  ((IsQPayError err).2 = true <-> exists p, err = Some (ErrQPay p)) /\
  (forall p, err = Some (ErrQPay p) -> IsQPayError err = (p, true)) /\
  ((exists q, IsQPayError err = (Some q, true)) <->
   (exists q, err = Some (ErrQPay (Some q)))) /\
  ((forall p, err <> Some (ErrQPay p)) -> IsQPayError err = (None, false)) /\
  IsQPayError None = (None, false) /\
  (forall prefix inner, IsQPayError (Some (fmt_Errorf_w prefix inner)) = (None, false)) /\
  (forall msg, IsQPayError (Some (ErrOther msg)) = (None, false)).
Proof.
  split; [|split; [|split; [|split; [|split; [|split]]]]].
  - split.
    + destruct err as [[p| |]|]; cbn; try discriminate. intros _. exists p. reflexivity.
    + intros (p & ->). reflexivity.
  - intros p ->. reflexivity.
  - split.
    + intros (q & E). destruct err as [[p| |]|]; cbn in E; try discriminate.
      injection E as ->. exists q. reflexivity.
    + intros (q & ->). exists q. reflexivity.
  - intros H. destruct err as [[p| |]|]; cbn; try reflexivity.
    exfalso. apply (H p). reflexivity.
  - reflexivity.
  - reflexivity.
  - reflexivity.
Qed.

Lemma IsQPayError_type_assertion_witness :
  IsQPayError (Some auth_401_error) =
    (Some (mkError 401 "AUTHENTICATION_FAILED" "Invalid credentials"
             "{error:AUTHENTICATION_FAILED,message:Invalid credentials}"), true) /\
  IsQPayError (Some (ErrWrap "failed to get token: " auth_401_error)) = (None, false).
Proof.
  destruct (IsQPayError_type_assertion (Some auth_401_error)) as (_ & H1 & _).
  destruct (IsQPayError_type_assertion
              (Some (ErrWrap "failed to get token: " auth_401_error)))
    as (_ & _ & _ & H2 & _).
  split.
  - apply H1. reflexivity.
  - apply H2. intros p. discriminate.
Defined.

(** ** config.go *)

Section Config.

Lemma Getenv_empty (environ : gmap string string) (name : string) :
  Getenv environ name = "" <-> environ !! name = None \/ environ !! name = Some "".
Proof.
  unfold Getenv. destruct (environ !! name) as [v|]; cbn.
  - split.
    + intros ->. right. reflexivity.
    + intros [H|H]; [discriminate|]. injection H as ->. reflexivity.
  - split; [left|]; reflexivity.
Qed.

Lemma required_entries (cfg : Config) :
  map_to_list (required cfg) ≡ₚ
  [("QPAY_BASE_URL", BaseURL cfg); ("QPAY_USERNAME", Username cfg);
   ("QPAY_PASSWORD", Password cfg); ("QPAY_INVOICE_CODE", InvoiceCode cfg);
   ("QPAY_CALLBACK_URL", CallbackURL cfg)].
Proof.
  unfold required.
  repeat (rewrite map_to_list_insert;
          [apply Permutation_cons; [reflexivity|]
          | repeat (rewrite lookup_insert_ne by discriminate); apply lookup_empty]).
  rewrite map_to_list_empty. reflexivity.
Qed.

Lemma range_required_Some (entries : list (string * string)) (err : error) :
  range_required entries = Some err ->
  exists name, In (name, "") entries /\ err = ErrOther (not_set_message name).
Proof.
  induction entries as [|[name val] rest IH]; cbn; [discriminate|].
  destruct (String.eqb val "") eqn:E.
  - intros H. injection H as <-. apply String.eqb_eq in E. subst val.
    exists name. split; [left|]; reflexivity.
  - intros H. destruct (IH H) as (n & I & ->). exists n. split; [right; exact I|reflexivity].
Qed.

Lemma range_required_None (entries : list (string * string)) :
  range_required entries = None ->
  forall name val, In (name, val) entries -> val <> "".
Proof.
  induction entries as [|[name val] rest IH]; cbn; [intros _ ? ? []|].
  destruct (String.eqb val "") eqn:E; [discriminate|].
  intros H n v [I|I].
  - injection I as <- <-. apply String.eqb_neq. exact E.
  - apply (IH H n v I).
Qed.

Lemma order_entries (environ : gmap string string) (order : list (string * string)) :
  iteration_order (config_of_env environ) order ->
  forall name val,
    In (name, val) order <->
    In name required_names /\ val = Getenv environ name.
Proof.
  intros P name val. unfold iteration_order in P.
  rewrite required_entries in P.
  rewrite <- !list_elem_of_In. rewrite P. rewrite !list_elem_of_In.
  unfold required_names, config_of_env. cbn.
  split.
  - intros [H|[H|[H|[H|[H|[]]]]]]; injection H as <- <-; split; try reflexivity; tauto.
  - intros [[H|[H|[H|[H|[H|[]]]]]] ->]; subst name; tauto.
Qed.

End Config.

(** C8: whatever order the runtime visits the entries of [required] in,
    [LoadConfigFromEnv] returns an error exactly when one of the five
    variables is unset or empty; the error message is then the fixed text
    around the name of one such variable; and on success every one of the
    five variables is set and non-empty and the five fields of the returned
    [Config] are their values. *)
Theorem LoadConfigFromEnv_spec (environ : gmap string string)
    (order : list (string * string)) :
  iteration_order (config_of_env environ) order ->
  ((exists err, LoadConfigFromEnv environ order = Fail err) <->
   (exists name, In name required_names /\
                 (environ !! name = None \/ environ !! name = Some ""))) /\
  match LoadConfigFromEnv environ order with
  | Fail err =>
      exists name,
        In name required_names /\
        (environ !! name = None \/ environ !! name = Some "") /\
        err = ErrOther ("required environment variable " +:+ name +:+ " is not set")
  | Ok cfg =>
      (forall name, In name required_names ->
                    exists val, environ !! name = Some val /\ val <> "") /\
      environ !! "QPAY_BASE_URL" = Some (BaseURL cfg) /\
      environ !! "QPAY_USERNAME" = Some (Username cfg) /\
      environ !! "QPAY_PASSWORD" = Some (Password cfg) /\
      environ !! "QPAY_INVOICE_CODE" = Some (InvoiceCode cfg) /\
      environ !! "QPAY_CALLBACK_URL" = Some (CallbackURL cfg)
  end.
Proof.
  intros P.
  pose proof (order_entries environ order P) as Mem.
  assert (Set_ : range_required order = None ->
                 forall name, In name required_names ->
                              exists val, environ !! name = Some val /\ val <> "").
  { intros N name I.
    pose proof (range_required_None order N name (Getenv environ name)) as H.
    specialize (H (proj2 (Mem _ _) (conj I eq_refl))).
    unfold Getenv in H. destruct (environ !! name) as [v|]; cbn in H.
    - exists v. split; [reflexivity|exact H].
    - exfalso. apply H. reflexivity. }
  assert (Val : range_required order = None ->
                forall name, In name required_names ->
                             environ !! name = Some (Getenv environ name)).
  { intros N name I. destruct (Set_ N name I) as (v & E & _).
    unfold Getenv. rewrite E. reflexivity. }
  unfold LoadConfigFromEnv.
  destruct (range_required order) as [err|] eqn:R.
  - destruct (range_required_Some order err R) as (name & I & ->).
    apply Mem in I as [I G]. symmetry in G. apply Getenv_empty in G.
    split.
    + split; [|intros _; eexists; reflexivity].
      intros _. exists name. split; assumption.
    + exists name. repeat split; assumption.
  - split.
    + split; [intros (err & H); discriminate|].
      intros (name & I & G). exfalso.
      destruct (Set_ eq_refl name I) as (v & E & NE).
      destruct G as [G|G]; rewrite E in G; [discriminate|]. injection G as ->.
      apply NE. reflexivity.
    + split; [apply Set_; reflexivity|].
      unfold config_of_env. cbn [BaseURL Username Password InvoiceCode CallbackURL].
      repeat split; apply (Val eq_refl); unfold required_names; cbn; tauto.
Qed.

Lemma LoadConfigFromEnv_spec_witness :
  let environ := environ_no_password in
  let order := rev (canonical_order (config_of_env environ)) in
  ((exists err, LoadConfigFromEnv environ order = Fail err) <->
   (exists name, In name required_names /\
                 (environ !! name = None \/ environ !! name = Some ""))) /\
  match LoadConfigFromEnv environ order with
  | Fail err =>
      exists name,
        In name required_names /\
        (environ !! name = None \/ environ !! name = Some "") /\
        err = ErrOther ("required environment variable " +:+ name +:+ " is not set")
  | Ok cfg =>
      (forall name, In name required_names ->
                    exists val, environ !! name = Some val /\ val <> "") /\
      environ !! "QPAY_BASE_URL" = Some (BaseURL cfg) /\
      environ !! "QPAY_USERNAME" = Some (Username cfg) /\
      environ !! "QPAY_PASSWORD" = Some (Password cfg) /\
      environ !! "QPAY_INVOICE_CODE" = Some (InvoiceCode cfg) /\
      environ !! "QPAY_CALLBACK_URL" = Some (CallbackURL cfg)
  end.
Proof.
  cbv zeta.
  apply (LoadConfigFromEnv_spec environ_no_password
           (rev (canonical_order (config_of_env environ_no_password)))).
  unfold iteration_order.
  rewrite (required_entries (config_of_env environ_no_password)).
  symmetry. apply Permutation_rev.
Defined.

(** The run of the example: the loader names the variable that is not set. *)
Example LoadConfigFromEnv_no_password :
  LoadConfigFromEnv environ_no_password
    (rev (canonical_order (config_of_env environ_no_password))) =
  Fail (ErrOther "required environment variable QPAY_PASSWORD is not set").
Proof. vm_compute. reflexivity. Qed.

(** ** Error defaults *)

Section ErrorDefaults.

Variable env : Env.
Variable cfg : Config.

Lemma not_2xx_true (status : Z) :
  not_2xx status = true <-> status < 200 \/ status >= 300.
Proof.
  unfold not_2xx. rewrite orb_true_iff, Z.ltb_lt, Z.geb_leb, Z.leb_le. lia.
Qed.

(** The block shared by [doRequest] and [doBasicAuthRequest] defaults an
    empty code and an empty message. *)
Lemma classify_error_spec (status : Z) (body : string) :
  let decoded := json_error_fields env body in
  let code := default "" decoded.1 in
  let message := default "" decoded.2 in
  classify_error env status body =
  mkError status (if String.eqb code "" then StatusText env status else code)
          (if String.eqb message "" then body else message) body.
Proof.
  cbv zeta. unfold classify_error, json_Unmarshal_Error.
  destruct (json_error_fields env body) as [c m]. cbn.
  destruct (String.eqb (default "" c) ""); cbn;
    destruct (String.eqb (default "" m) ""); reflexivity.
Qed.

Lemma classify_error_defaults (status : Z) (body : string) :
  json_error_fields env body = (None, None) ->
  classify_error env status body = mkError status (StatusText env status) body body.
Proof.
  intros E. rewrite classify_error_spec. rewrite E. reflexivity.
Qed.

(** The basic-auth path ([getTokenRequest], [GetToken]) applies the defaults. *)
Lemma getTokenRequest_error_defaults (w : World) (status : Z) (body : string) :
  newRequest env "POST" (BaseURL cfg +:+ "/v2/auth/token") = None ->
  http_do env (requests (trace w)) (tokenRequest cfg) = Response status body ->
  status < 200 \/ status >= 300 ->
  json_error_fields env body = (None, None) ->
  (getTokenRequest env cfg w).1 =
  Fail (ErrQPay (Some (mkError status (StatusText env status) body body))).
Proof.
  intros N H S J. unfold getTokenRequest, doBasicAuthRequest. rewrite N.
  unfold_m. cbn. unfold tokenRequest in H. rewrite H.
  rewrite (proj2 (not_2xx_true status) S). cbn.
  rewrite classify_error_defaults by exact J. reflexivity.
Qed.

End ErrorDefaults.

(** C6 does not hold on the token-refresh path.  For a response outside
    [200,300) whose body yields neither an [error] nor a [message] field,
    [doRefreshTokenHTTP] (and so [RefreshToken]) returns an [Error] whose
    [Code] and [Message] are both empty; only [StatusCode] and [RawBody] are
    set.  The basic-auth path, given the same response, returns [Code] equal
    to the status text and [Message] equal to the body. *)
Theorem doRefreshTokenHTTP_error_not_defaulted (env : Env) (cfg : Config)
    (refreshTok : string) (w : World) (status : Z) (body : string) :
  newRequest env "POST" (BaseURL cfg +:+ "/v2/auth/refresh") = None ->
  http_do env (requests (trace w))
    (mkRequest "POST" (BaseURL cfg +:+ "/v2/auth/refresh") None
               (Bearer refreshTok) None) = Response status body ->
  status < 200 \/ status >= 300 ->
  json_error_fields env body = (None, None) ->
  (doRefreshTokenHTTP env cfg refreshTok w).1 =
    Fail (ErrQPay (Some (mkError status "" "" body))) /\
  (refreshTok = refreshToken (client w) ->
   (Client_RefreshToken env cfg w).1 =
     Fail (ErrQPay (Some (mkError status "" "" body)))) /\
  classify_error env status body = mkError status (StatusText env status) body body.
Proof.
  intros N H S J.
  assert (R : (doRefreshTokenHTTP env cfg refreshTok w).1 =
              Fail (ErrQPay (Some (mkError status "" "" body)))).
  { unfold doRefreshTokenHTTP. rewrite N. unfold_m. cbn. rewrite H.
    rewrite (proj2 (not_2xx_true status) S). cbn.
    unfold json_Unmarshal_Error. rewrite J. reflexivity. }
  split; [exact R|]. split.
  - intros ->. rewrite Client_RefreshToken_run. cbv zeta. rewrite R. reflexivity.
  - apply classify_error_defaults. exact J.
Qed.

Lemma doRefreshTokenHTTP_error_not_defaulted_witness :
  let env := test_env plain_500 plain_500 plain_500 in
  (doRefreshTokenHTTP env test_cfg "refresh-xyz" world_expired).1 =
    Fail (ErrQPay (Some (mkError 500 "" "" "Internal Server Error"))) /\
  ("refresh-xyz" = refreshToken (client world_expired) ->
   (Client_RefreshToken env test_cfg world_expired).1 =
     Fail (ErrQPay (Some (mkError 500 "" "" "Internal Server Error")))) /\
  classify_error env 500 "Internal Server Error" =
    mkError 500 (StatusText env 500) "Internal Server Error" "Internal Server Error".
Proof.
  cbv zeta.
  apply (doRefreshTokenHTTP_error_not_defaulted
           (test_env plain_500 plain_500 plain_500) test_cfg "refresh-xyz"
           world_expired 500 "Internal Server Error").
  - reflexivity.
  - reflexivity.
  - right. lia.
  - reflexivity.
Defined.

(** ** The mutex discipline *)

Lemma lock_discipline_app (held : bool) (a b : list Event) :
  lock_discipline held (a ++ b) =
  match lock_discipline held a with
  | Some held' => lock_discipline held' b
  | None => None
  end.
Proof.
  revert held. induction a as [|ev a IH]; intros held; [reflexivity|].
  destruct ev; cbn; try apply IH; destruct held; try apply IH; reflexivity.
Qed.

Lemma network_unlocked_app (held held' : bool) (a b : list Event) :
  lock_discipline held a = Some held' ->
  network_unlocked held (a ++ b) = network_unlocked held a && network_unlocked held' b.
Proof.
  revert held. induction a as [|ev a IH]; intros held H.
  - cbn in *. injection H as ->. reflexivity.
  - destruct ev; cbn in *; try (apply IH; exact H).
    + destruct held; [|discriminate]. apply IH. exact H.
    + destruct held; [|discriminate]. apply IH. exact H.
    + rewrite (IH held H). apply andb_assoc.
Qed.

Lemma disciplined_nil : disciplined [].
Proof. split; reflexivity. Qed.

Lemma disciplined_app (a b : list Event) :
  disciplined a -> disciplined b -> disciplined (a ++ b).
Proof.
  intros [La Na] [Lb Nb]. split.
  - rewrite lock_discipline_app, La. exact Lb.
  - rewrite (network_unlocked_app false false a b La), Na, Nb. reflexivity.
Qed.

Lemma disciplined_prelude (c : Client) : disciplined (prelude c).
Proof.
  unfold prelude.
  destruct (nonempty (accessToken c)), (nonempty (refreshToken c)); split; reflexivity.
Qed.

Lemma disciplined_store_events : disciplined store_events.
Proof. split; reflexivity. Qed.

Lemma disciplined_refresh_sent (env : Env) (cfg : Config) (tok : string) :
  disciplined (refresh_sent env cfg tok).
Proof. unfold refresh_sent. destruct (newRequest env _ _); split; reflexivity. Qed.

Lemma disciplined_token_sent (env : Env) (cfg : Config) :
  disciplined (token_sent env cfg).
Proof. unfold token_sent. destruct (newRequest env _ _); split; reflexivity. Qed.

Create HintDb discipline.

#[local] Hint Resolve disciplined_nil disciplined_app disciplined_prelude
  disciplined_store_events disciplined_refresh_sent disciplined_token_sent
  : discipline.

Section Discipline.

Variable env : Env.
Variable cfg : Config.

(** [ensureToken] touches the token fields only inside its critical
    sections, on every path. *)
Lemma ensureToken_disciplined (w : World) :
  exists evs, trace (ensureToken env cfg w).2 = trace w ++ evs /\ disciplined evs.
Proof.
  destruct (access_fresh (clock w) (client w)) eqn:F.
  - rewrite (ensureToken_fresh_run env cfg w F). eexists. split; [reflexivity|].
    split; reflexivity.
  - rewrite (ensureToken_stale_run env cfg w F). cbv zeta.
    set (rt := refreshToken (client w)).
    assert (X : forall evs, disciplined evs ->
      exists evs', trace (ensureToken_fullAuth env cfg (extend w evs)).2 = trace w ++ evs'
                   /\ disciplined evs').
    { intros evs D. rewrite ensureToken_fullAuth_run.
      destruct ((getTokenRequest env cfg (extend w evs)).1) as [token|e].
      - exists (evs ++ token_sent env cfg ++ store_events). split.
        + unfold install, extend. cbn [snd trace]. rewrite <- !app_assoc. reflexivity.
        + auto with discipline.
      - exists (evs ++ token_sent env cfg). split.
        + unfold extend. cbn [snd trace]. rewrite <- !app_assoc. reflexivity.
        + auto with discipline. }
    destruct (can_refresh (clock w) (client w)).
    + destruct ((doRefreshTokenHTTP env cfg rt (extend w (prelude (client w)))).1)
        as [token|e0].
      * exists (prelude (client w) ++ refresh_sent env cfg rt ++ store_events). split.
        -- unfold install, extend. cbn [snd trace]. rewrite <- !app_assoc. reflexivity.
        -- auto with discipline.
      * destruct (X (prelude (client w) ++ refresh_sent env cfg rt)) as (evs' & T & D);
          [auto with discipline|].
        exists evs'. split; [|exact D]. rewrite <- T. f_equal. f_equal.
        unfold extend. cbn [client trace clock]. rewrite <- !app_assoc. reflexivity.
    + apply X. auto with discipline.
Qed.

Lemma GetToken_disciplined (w : World) :
  exists evs, trace (GetToken env cfg w).2 = trace w ++ evs /\ disciplined evs.
Proof.
  rewrite GetToken_run.
  destruct ((getTokenRequest env cfg w).1) as [token|e].
  - exists (token_sent env cfg ++ store_events). split.
    + unfold install, extend. cbn [snd trace]. rewrite <- !app_assoc. reflexivity.
    + auto with discipline.
  - exists (token_sent env cfg). split; [reflexivity|auto with discipline].
Qed.

Lemma Client_RefreshToken_disciplined (w : World) :
  exists evs, trace (Client_RefreshToken env cfg w).2 = trace w ++ evs /\ disciplined evs.
Proof.
  rewrite Client_RefreshToken_run. cbv zeta.
  assert (P : disciplined refresh_prelude) by (split; reflexivity).
  destruct ((doRefreshTokenHTTP env cfg (refreshToken (client w)) w).1) as [token|e].
  - exists (refresh_prelude ++ refresh_sent env cfg (refreshToken (client w))
              ++ store_events). split.
    + unfold install, extend. cbn [snd trace]. rewrite <- !app_assoc. reflexivity.
    + auto with discipline.
  - exists (refresh_prelude ++ refresh_sent env cfg (refreshToken (client w))). split.
    + unfold extend. cbn [snd trace]. rewrite <- !app_assoc. reflexivity.
    + auto with discipline.
Qed.

(** [doRequest] once [ensureToken] has succeeded and the request is built:
    the access token is read and the exchange performed. *)
Lemma doRequest_sends {B A} `{!Marshaler B} `{!Unmarshaler A}
    (method path : string) (body : option B) (result : option A) (w : World)
    (bodyReader : option string) :
  (ensureToken env cfg w).1 = None ->
  marshals body bodyReader ->
  newRequest env method (BaseURL cfg +:+ path) = None ->
  let w1 := (ensureToken env cfg w).2 in
  let req := mkRequest method (BaseURL cfg +:+ path) (Some "application/json")
               (Bearer (accessToken (client w1))) bodyReader in
  doRequest env cfg method path body result w =
  (match http_do env (requests (trace w1)) req with
   | DoErr err => (Some (ErrWrap "request failed: " err), result)
   | ReadErr err => (Some (ErrWrap "failed to read response body: " err), result)
   | Response status respBody =>
       if not_2xx status
       then (Some (ErrQPay (Some (classify_error env status respBody))), result)
       else decode_result respBody result
   end,
   extend w1 [EvRead FAccessToken; EvHTTP req]).
Proof.
  intros E Bd N. cbv zeta. unfold doRequest. unfold bind at 1. unfold marshals in Bd.
  destruct (ensureToken env cfg w) as [e w1]. cbn [fst snd] in *. subst e.
  assert (M : match body with
              | Some b => match json_Marshal b with
                          | Ok data => Ok (Some data)
                          | Fail err =>
                              Fail (fmt_Errorf_w "failed to marshal request body: " err)
                          end
              | None => Ok None
              end = Ok bodyReader).
  { destruct body as [b|].
    - destruct Bd as (data & -> & ->). reflexivity.
    - subst bodyReader. reflexivity. }
  rewrite M, N. unfold_m. cbn.
  unfold requests. rewrite omap_app. cbn [omap list_omap]. rewrite app_nil_r.
  replace ((trace w1 ++ [EvRead FAccessToken]) ++
           [EvHTTP (mkRequest method (BaseURL cfg +:+ path) (Some "application/json")
                      (Bearer (accessToken (client w1))) bodyReader)])
    with (trace w1 ++ [EvRead FAccessToken;
           EvHTTP (mkRequest method (BaseURL cfg +:+ path) (Some "application/json")
                      (Bearer (accessToken (client w1))) bodyReader)])
    by (rewrite <- app_assoc; reflexivity).
  match goal with |- context [http_do ?e ?h ?r] =>
    destruct (http_do e h r) as [err|err|status respBody] end; try reflexivity.
  destruct (not_2xx status); reflexivity.
Qed.

End Discipline.

(** C9 does not hold in [doRequest].  Whenever [ensureToken] has returned nil, the
    body (if any) marshals and the request can be built, the steps of
    [doRequest] are those of [ensureToken], which keep the discipline and end
    with the mutex released, followed by a read of [accessToken] with the
    mutex not held (client.go:150): the discipline is broken. *)
Theorem doRequest_reads_accessToken_unlocked (env : Env) (cfg : Config)
    {B A : Type} `{!Marshaler B} `{!Unmarshaler A}
    (method path : string) (body : option B) (result : option A) (w : World) :
  (ensureToken env cfg w).1 = None ->
  match body with
  | Some b => exists data, json_Marshal b = Ok data
  | None => True
  end ->
  newRequest env method (BaseURL cfg +:+ path) = None ->
  let w' := (doRequest env cfg method path body result w).2 in
  exists evs rest,
    emitted w w' = evs ++ EvRead FAccessToken :: rest /\
    emitted w (ensureToken env cfg w).2 = evs /\
    lock_discipline false evs = Some false /\
    lock_discipline false (emitted w w') = None.
Proof.
  intros E Bd N. cbv zeta.
  set (bodyReader := match body with
                     | Some b => match json_Marshal b with
                                 | Ok data => Some data
                                 | Fail _ => None
                                 end
                     | None => None
                     end).
  rewrite (doRequest_sends env cfg method path body result w bodyReader E); try exact N.
  2:{ destruct body as [b|]; [|reflexivity].
      destruct Bd as (data & Bd). exists data. split; [exact Bd|].
      unfold bodyReader. rewrite Bd. reflexivity. }
  cbv zeta. cbn [snd].
  destruct (ensureToken_disciplined env cfg w) as (evs & T & [L _]).
  exists evs. eexists.
  assert (T' : trace (extend (ensureToken env cfg w).2
                        [EvRead FAccessToken;
                         EvHTTP (mkRequest method (BaseURL cfg +:+ path)
                                   (Some "application/json")
                                   (Bearer (accessToken (client (ensureToken env cfg w).2)))
                                   bodyReader)]) =
               trace w ++ evs ++
                 [EvRead FAccessToken;
                  EvHTTP (mkRequest method (BaseURL cfg +:+ path)
                            (Some "application/json")
                            (Bearer (accessToken (client (ensureToken env cfg w).2)))
                            bodyReader)]).
  { unfold extend. cbn [trace]. rewrite T, <- app_assoc. reflexivity. }
  rewrite (emitted_extend _ _ _ T'), (emitted_extend _ _ _ T).
  split; [reflexivity|]. split; [reflexivity|]. split; [exact L|].
  rewrite lock_discipline_app, L. reflexivity.
Qed.

Lemma doRequest_reads_accessToken_unlocked_witness :
  let env := test_env refresh_401 ok_abc api_400 in
  let w' := (doRequest (B := Empty_set) (A := unit) env test_cfg
               "GET" "/v2/payment/1" None None world_valid).2 in
  exists evs rest,
    emitted world_valid w' = evs ++ EvRead FAccessToken :: rest /\
    emitted world_valid (ensureToken env test_cfg world_valid).2 = evs /\
    lock_discipline false evs = Some false /\
    lock_discipline false (emitted world_valid w') = None.
Proof.
  cbv zeta.
  apply (doRequest_reads_accessToken_unlocked (test_env refresh_401 ok_abc api_400)
           test_cfg (B := Empty_set) (A := unit) "GET" "/v2/payment/1" None None
           world_valid).
  - vm_compute. reflexivity.
  - exact I.
  - reflexivity.
Defined.

(** The run of the example, step by step. *)
Example doRequest_trace_example :
  emitted world_valid
    (doRequest (B := Empty_set) (A := unit) (test_env refresh_401 ok_abc api_400)
       test_cfg "GET" "/v2/payment/1" None None world_valid).2 =
  [EvLock; EvRead FAccessToken; EvRead FExpiresAt; EvUnlock;
   EvRead FAccessToken;
   EvHTTP (mkRequest "GET" "http://127.0.0.1/v2/payment/1" (Some "application/json")
             (Bearer "access-abc") None)].
Proof. vm_compute. reflexivity. Qed.

(** ** Propagation of errors through a domain operation *)


Section Propagation.

Variable env : Env.
Variable cfg : Config.

Lemma doRequest_ensureToken_error {B A} `{!Marshaler B} `{!Unmarshaler A}
    (method path : string) (body : option B) (result : option A) (w : World)
    (err : error) :
  (ensureToken env cfg w).1 = Some err ->
  doRequest env cfg method path body result w =
  (Some err, result, (ensureToken env cfg w).2).
Proof.
  intros E. unfold doRequest. unfold bind at 1.
  destruct (ensureToken env cfg w) as [e w1]. cbn [fst snd] in *. subst e.
  reflexivity.
Qed.


End Propagation.



(** The 400 of the example, as the caller of [CreateInvoice] sees it. *)
Example CreateInvoice_api_error_example :
  IsQPayError
    (match (CreateInvoice (test_env refresh_401 ok_abc api_400) test_cfg
              (Marshaler0 := text_Marshaler) (Unmarshaler0 := text_Unmarshaler)
              "{invoice}" world_new).1 with
     | Fail err => Some err
     | Ok _ => None
     end) = (Some api_400_error, true).
Proof. vm_compute. reflexivity. Qed.

(** * Further properties of the code *)

Section MoreRuns.

Variable env : Env.
Variable cfg : Config.

(** [doRequest], branch by branch. *)
Lemma doRequest_run {B A} `{!Marshaler B} `{!Unmarshaler A}
    (method path : string) (body : option B) (result : option A) (w : World) :
  doRequest env cfg method path body result w =
  let w1 := (ensureToken env cfg w).2 in
  match (ensureToken env cfg w).1 with
  | Some err => (Some err, result, w1)
  | None =>
      match marshal_body body with
      | Fail err => (Some err, result, w1)
      | Ok bodyReader =>
          match newRequest env method (BaseURL cfg +:+ path) with
          | Some err => (Some (ErrWrap "failed to create request: " err), result, w1)
          | None =>
              let req := domainRequest cfg method path (accessToken (client w1))
                           bodyReader in
              (match http_do env (requests (trace w1)) req with
               | DoErr err => (Some (ErrWrap "request failed: " err), result)
               | ReadErr err =>
                   (Some (ErrWrap "failed to read response body: " err), result)
               | Response status respBody =>
                   if not_2xx status
                   then (Some (ErrQPay (Some (classify_error env status respBody))),
                         result)
                   else decode_result respBody result
               end,
               extend w1 [EvRead FAccessToken; EvHTTP req])
          end
      end
  end.
Proof.
  cbv zeta.
  destruct ((ensureToken env cfg w).1) as [err|] eqn:E.
  - apply doRequest_ensureToken_error. exact E.
  - destruct (marshal_body body) as [bodyReader|err] eqn:Mb.
    + destruct (newRequest env method (BaseURL cfg +:+ path)) as [err|] eqn:N.
      * unfold doRequest. unfold bind at 1.
        destruct (ensureToken env cfg w) as [e w1]. cbn [fst snd] in *. subst e.
        unfold marshal_body, fmt_Errorf_w in *. rewrite Mb, N. reflexivity.
      * apply (doRequest_sends env cfg method path body result w bodyReader E);
          [|exact N].
        unfold marshals, marshal_body in *. destruct body as [b|].
        -- destruct (json_Marshal b) as [data|err]; [|discriminate].
           injection Mb as <-. exists data. split; reflexivity.
        -- injection Mb as <-. reflexivity.
    + unfold doRequest. unfold bind at 1.
      destruct (ensureToken env cfg w) as [e w1]. cbn [fst snd] in *. subst e.
      unfold marshal_body, fmt_Errorf_w in *. rewrite Mb. reflexivity.
Qed.

(** The requests [ensureToken] sends: at most a refresh with the refresh
    token stored at entry, then at most a full authentication. *)
Lemma ensureToken_requests (w : World) :
  exists r t,
    requests (emitted w (ensureToken env cfg w).2) = r ++ t /\
    (r = [] \/ r = [refreshRequest cfg (refreshToken (client w))]) /\
    (t = [] \/ t = [tokenRequest cfg]) /\
    (access_fresh (clock w) (client w) = true -> r = [] /\ t = []) /\
    (can_refresh (clock w) (client w) = false -> r = []).
Proof.
  assert (R : forall tok, requests (refresh_sent env cfg tok) = [] \/
                          requests (refresh_sent env cfg tok) = [refreshRequest cfg tok]).
  { intros tok. unfold refresh_sent. destruct (newRequest env _ _); [left|right];
      reflexivity. }
  assert (T : requests (token_sent env cfg) = [] \/
              requests (token_sent env cfg) = [tokenRequest cfg]).
  { unfold token_sent. destruct (newRequest env _ _); [left|right]; reflexivity. }
  destruct (access_fresh (clock w) (client w)) eqn:F.
  - rewrite (ensureToken_fresh_run env cfg w F). exists [], [].
    split; [|split; [left; reflexivity|split; [left; reflexivity|split]]].
    + erewrite emitted_extend; [|reflexivity]. reflexivity.
    + intros _. split; reflexivity.
    + intros _. reflexivity.
  - rewrite (ensureToken_stale_run env cfg w F). cbv zeta.
    set (rt := refreshToken (client w)).
    set (w0 := extend w (prelude (client w))).
    destruct (can_refresh (clock w) (client w)).
    + destruct ((doRefreshTokenHTTP env cfg rt w0).1) as [token|e0].
      * exists (requests (refresh_sent env cfg rt)), [].
        split; [|split; [apply R|split; [left; reflexivity|split; discriminate]]].
        erewrite emitted_extend.
        2:{ unfold install, w0, extend. cbn [trace]. rewrite <- !app_assoc.
            reflexivity. }
        rewrite !requests_app, requests_prelude, requests_store_events.
        reflexivity.
      * rewrite ensureToken_fullAuth_run.
        exists (requests (refresh_sent env cfg rt)), (requests (token_sent env cfg)).
        split; [|split; [apply R|split; [apply T|split; discriminate]]].
        destruct ((getTokenRequest env cfg _).1).
        -- erewrite emitted_extend.
           2:{ unfold install, w0, extend. cbn [snd trace]. rewrite <- !app_assoc.
               reflexivity. }
           rewrite !requests_app, requests_prelude, requests_store_events, app_nil_r.
           reflexivity.
        -- erewrite emitted_extend.
           2:{ unfold w0, extend. cbn [snd trace]. rewrite <- !app_assoc.
               reflexivity. }
           rewrite !requests_app, requests_prelude. reflexivity.
    + rewrite ensureToken_fullAuth_run.
      exists [], (requests (token_sent env cfg)).
      split; [|split; [left; reflexivity|split; [apply T|split;
                [discriminate|reflexivity]]]].
      destruct ((getTokenRequest env cfg _).1).
      * erewrite emitted_extend.
        2:{ unfold install, w0, extend. cbn [snd trace]. rewrite <- !app_assoc.
            reflexivity. }
        rewrite !requests_app, requests_prelude, requests_store_events, app_nil_r.
        reflexivity.
      * erewrite emitted_extend.
        2:{ unfold w0, extend. cbn [snd trace]. rewrite <- !app_assoc.
            reflexivity. }
        rewrite !requests_app, requests_prelude. reflexivity.
Qed.

Lemma ensureToken_trace_extends (w : World) :
  exists evs, trace (ensureToken env cfg w).2 = trace w ++ evs.
Proof.
  destruct (ensureToken_disciplined env cfg w) as (evs & T & _). exists evs. exact T.
Qed.

Lemma ensureToken_clock (w : World) : clock (ensureToken env cfg w).2 = clock w.
Proof.
  destruct (ensureToken_outcome env cfg w) as [(evs & E)|[(t & evs & E)|(e & evs & E)]];
    rewrite E; reflexivity.
Qed.

End MoreRuns.

(** X1 (client.go:46-83): [ensureToken] never retries.  Whatever the server
    does, the requests of one call are at most a refresh, carrying the
    refresh token stored at entry as bearer credential, followed by at most
    a full authentication with the configured credentials, so at most two;
    nothing is sent when the access token passes its test, and no refresh is
    sent when the refresh token is empty or past its window. *)
Theorem ensureToken_sends_at_most_two (env : Env) (cfg : Config) (w : World) :
  exists r t,
    requests (emitted w (ensureToken env cfg w).2) = r ++ t /\
    (r = [] \/ r = [refreshRequest cfg (refreshToken (client w))]) /\
    (t = [] \/ t = [tokenRequest cfg]) /\
    (length (r ++ t) <= 2)%nat /\
    (accessToken (client w) <> "" /\
     clock w < sub64 (expiresAt (client w)) tokenBufferSeconds ->
     r = [] /\ t = []) /\
    (refreshToken (client w) = "" \/
     clock w >= sub64 (refreshExpiresAt (client w)) tokenBufferSeconds ->
     r = []).
Proof.
  destruct (ensureToken_requests env cfg w) as (r & t & E & Hr & Ht & Hf & Hc).
  exists r, t. split; [exact E|]. split; [exact Hr|]. split; [exact Ht|].
  split; [|split].
  - rewrite length_app. destruct Hr as [->| ->], Ht as [->| ->]; cbn; lia.
  - intros H. apply Hf. apply access_fresh_spec. exact H.
  - intros H. apply Hc. apply can_refresh_false. exact H.
Qed.

(** X2 (client.go:129-185): [doRequest] never retries and never touches the
    token fields itself.  The fields it leaves are those [ensureToken] left;
    its requests are those of [ensureToken] followed by at most one domain
    request, which carries the access token as bearer credential, so at most
    three in all (a refresh, a full authentication, the domain request);
    the domain request is sent whenever [doRequest] returns nil and never
    when [ensureToken] failed. *)
Theorem doRequest_sends_at_most_three (env : Env) (cfg : Config)
    {B A : Type} `{!Marshaler B} `{!Unmarshaler A}
    (method path : string) (body : option B) (result : option A) (w : World) :
  let w1 := (ensureToken env cfg w).2 in
  let run := doRequest env cfg method path body result w in
  client run.2 = client w1 /\
  clock run.2 = clock w /\
  exists d,
    requests (emitted w run.2) = requests (emitted w w1) ++ d /\
    (d = [] \/
     exists bodyReader,
       d = [domainRequest cfg method path (accessToken (client w1)) bodyReader]) /\
    (run.1.1 = None -> d <> []) /\
    ((ensureToken env cfg w).1 <> None -> d = []) /\
    (length (requests (emitted w run.2)) <= 3)%nat.
Proof.
  cbv zeta. rewrite doRequest_run. cbv zeta.
  destruct (ensureToken_trace_extends env cfg w) as (evs & T).
  pose proof (ensureToken_clock env cfg w) as K.
  destruct (ensureToken_requests env cfg w) as (r & t & E & Hr & Ht & _).
  rewrite (emitted_extend _ _ _ T) in E.
  assert (Len : (length (requests evs) <= 2)%nat).
  { rewrite E, length_app. destruct Hr as [->| ->], Ht as [->| ->]; cbn; lia. }
  assert (Stop : forall (o : option error * option A),
    o.1 <> None ->
    client (o, (ensureToken env cfg w).2).2 = client (ensureToken env cfg w).2 /\
    clock (o, (ensureToken env cfg w).2).2 = clock w /\
    exists d,
      requests (emitted w (o, (ensureToken env cfg w).2).2) =
        requests (emitted w (ensureToken env cfg w).2) ++ d /\
      (d = [] \/
       exists bodyReader,
         d = [domainRequest cfg method path
                (accessToken (client (ensureToken env cfg w).2)) bodyReader]) /\
      ((o, (ensureToken env cfg w).2).1.1 = None -> d <> []) /\
      ((ensureToken env cfg w).1 <> None -> d = []) /\
      (length (requests (emitted w (o, (ensureToken env cfg w).2).2)) <= 3)%nat).
  { intros o NZ. cbn [fst snd]. split; [reflexivity|]. split; [exact K|].
    exists []. rewrite app_nil_r. split; [reflexivity|]. split; [left; reflexivity|].
    split; [intros H; contradiction|]. split; [reflexivity|].
    rewrite (emitted_extend _ _ _ T). lia. }
  destruct ((ensureToken env cfg w).1) as [err|] eqn:E1.
  - apply (Stop (Some err, result)). discriminate.
  - destruct (marshal_body body) as [bodyReader|err].
    + destruct (newRequest env method (BaseURL cfg +:+ path)) as [err|].
      * apply (Stop (Some (ErrWrap "failed to create request: " err), result)).
        discriminate.
      * cbn [fst snd]. split; [reflexivity|]. split; [exact K|].
        set (req := domainRequest cfg method path _ bodyReader).
        exists [req].
        assert (T' : trace (extend (ensureToken env cfg w).2
                              [EvRead FAccessToken; EvHTTP req]) =
                     trace w ++ evs ++ [EvRead FAccessToken; EvHTTP req]).
        { unfold extend. cbn [trace]. rewrite T, <- app_assoc. reflexivity. }
        rewrite (emitted_extend _ _ _ T'), (emitted_extend _ _ _ T).
        split; [rewrite requests_app; reflexivity|].
        split; [right; exists bodyReader; reflexivity|].
        split; [intros _; discriminate|]. split; [intros H; contradiction|].
        rewrite requests_app, length_app. cbn. lia.
    + apply (Stop (Some err, result)). discriminate.
Qed.

Section MoreDoRequest.

Variable env : Env.
Variable cfg : Config.

Lemma not_2xx_false (status : Z) : not_2xx status = false <-> 200 <= status < 300.
Proof.
  unfold not_2xx. rewrite orb_false_iff, Z.ltb_ge, Z.geb_leb, Z.leb_gt. lia.
Qed.

Lemma marshals_marshal_body {B} `{!Marshaler B} (body : option B)
    (bodyReader : option string) :
  marshals body bodyReader <-> marshal_body body = Ok bodyReader.
Proof.
  unfold marshals, marshal_body. destruct body as [b|].
  - destruct (json_Marshal b) as [data|err]; split.
    + intros (d & E & ->). injection E as ->. reflexivity.
    + intros E. injection E as <-. exists data. split; reflexivity.
    + intros (d & E & _). discriminate.
    + discriminate.
  - split; [intros ->; reflexivity|intros E; injection E as <-; reflexivity].
Qed.

(** A full authentication that yields a token has sent its request. *)
Lemma getTokenRequest_ok_sent (w : World) (token : TokenResponse) :
  (getTokenRequest env cfg w).1 = Ok token ->
  token_sent env cfg = [EvHTTP (tokenRequest cfg)].
Proof.
  unfold getTokenRequest, doBasicAuthRequest, token_sent.
  destruct (newRequest env "POST" (BaseURL cfg +:+ "/v2/auth/token"));
    [discriminate|reflexivity].
Qed.

Lemma doRefreshTokenHTTP_ok_sent (tok : string) (w : World) (token : TokenResponse) :
  (doRefreshTokenHTTP env cfg tok w).1 = Ok token ->
  refresh_sent env cfg tok = [EvHTTP (refreshRequest cfg tok)].
Proof.
  unfold doRefreshTokenHTTP, refresh_sent.
  destruct (newRequest env "POST" (BaseURL cfg +:+ "/v2/auth/refresh"));
    [discriminate|reflexivity].
Qed.

(** [ensureToken] when it goes straight to a full authentication that
    yields a token. *)
Lemma ensureToken_full_auth_ok (w : World) (token : TokenResponse) :
  accessToken (client w) = "" \/
    clock w >= sub64 (expiresAt (client w)) tokenBufferSeconds ->
  refreshToken (client w) = "" \/
    clock w >= sub64 (refreshExpiresAt (client w)) tokenBufferSeconds ->
  (getTokenRequest env cfg w).1 = Ok token ->
  ensureToken env cfg w =
  (None, mkWorld (stored token)
           (trace w ++ prelude (client w) ++ [EvHTTP (tokenRequest cfg)] ++ store_events)
           (clock w)).
Proof.
  intros Stale NoR G.
  rewrite ensureToken_stale_run by (apply access_fresh_false; exact Stale).
  cbv zeta. rewrite can_refresh_false by exact NoR.
  rewrite ensureToken_fullAuth_run.
  rewrite (getTokenRequest_history env cfg _ w), G.
  2:{ unfold extend. cbn [trace]. rewrite requests_app, requests_prelude.
      apply app_nil_r. }
  rewrite (getTokenRequest_ok_sent w token G).
  unfold install, extend. cbn [client trace clock]. rewrite <- !app_assoc. reflexivity.
Qed.

(** [ensureToken] when the refresh yields a token. *)
Lemma ensureToken_refresh_ok (w : World) (token : TokenResponse) :
  accessToken (client w) = "" \/
    clock w >= sub64 (expiresAt (client w)) tokenBufferSeconds ->
  refreshToken (client w) <> "" ->
  clock w < sub64 (refreshExpiresAt (client w)) tokenBufferSeconds ->
  (doRefreshTokenHTTP env cfg (refreshToken (client w)) w).1 = Ok token ->
  ensureToken env cfg w =
  (None, mkWorld (stored token)
           (trace w ++ prelude (client w) ++
              [EvHTTP (refreshRequest cfg (refreshToken (client w)))] ++ store_events)
           (clock w)).
Proof.
  intros Stale NE L G.
  rewrite ensureToken_stale_run by (apply access_fresh_false; exact Stale).
  cbv zeta. rewrite can_refresh_true by assumption.
  rewrite (doRefreshTokenHTTP_history env cfg _ _ w), G.
  2:{ unfold extend. cbn [trace]. rewrite requests_app, requests_prelude.
      apply app_nil_r. }
  rewrite (doRefreshTokenHTTP_ok_sent _ w token G).
  unfold install, extend. cbn [client trace clock]. rewrite <- !app_assoc. reflexivity.
Qed.

(** The full authentication on an answer inside [200,300) with an empty
    body: nothing is decoded and the zero token is returned. *)
Lemma getTokenRequest_empty_body (w : World) (status : Z) :
  newRequest env "POST" (BaseURL cfg +:+ "/v2/auth/token") = None ->
  http_do env (requests (trace w)) (tokenRequest cfg) = Response status "" ->
  200 <= status < 300 ->
  (getTokenRequest env cfg w).1 = Ok zeroTokenResponse.
Proof.
  intros N H S. unfold getTokenRequest, doBasicAuthRequest. rewrite N.
  unfold_m. cbn. unfold tokenRequest in H. rewrite H.
  rewrite (proj2 (not_2xx_false status) S). reflexivity.
Qed.

End MoreDoRequest.

(** X3 (client.go:134-147, 158-161): the failures of [doRequest] that are
    not answers of the server.  They come after the authentication: once
    [ensureToken] has returned nil, a body that does not marshal or a request
    that cannot be built ends the call with the world exactly as
    [ensureToken] left it (its requests sent, its token stored, no domain
    request), and a response body that cannot be read ends it after the
    domain request.  Each error is the cause wrapped under a fixed text, so
    [IsQPayError] answers (nil, false) and one [Unwrap] gives the cause. *)
Theorem doRequest_local_failures (env : Env) (cfg : Config)
    {B A : Type} `{!Marshaler B} `{!Unmarshaler A}
    (method path : string) (body : option B) (result : option A) (w : World) :
  (ensureToken env cfg w).1 = None ->
  let w1 := (ensureToken env cfg w).2 in
  let run := doRequest env cfg method path body result w in
  (forall b e,
     body = Some b -> json_Marshal b = Fail e ->
     run = (Some (ErrWrap "failed to marshal request body: " e), result, w1)) /\
  (forall bodyReader e,
     marshals body bodyReader ->
     newRequest env method (BaseURL cfg +:+ path) = Some e ->
     run = (Some (ErrWrap "failed to create request: " e), result, w1)) /\
  (forall bodyReader e,
     marshals body bodyReader ->
     newRequest env method (BaseURL cfg +:+ path) = None ->
     http_do env (requests (trace w1))
       (domainRequest cfg method path (accessToken (client w1)) bodyReader) =
       ReadErr e ->
     run.1 = (Some (ErrWrap "failed to read response body: " e), result) /\
     client run.2 = client w1) /\
  (forall prefix e,
     run.1.1 = Some (ErrWrap prefix e) ->
     IsQPayError run.1.1 = (None, false) /\ Unwrap (ErrWrap prefix e) = Some e).
Proof.
  intros E. cbv zeta. rewrite doRequest_run. cbv zeta. rewrite E.
  split; [|split; [|split]].
  - intros b e -> Mb. unfold marshal_body. rewrite Mb. reflexivity.
  - intros bodyReader e Mb N. apply marshals_marshal_body in Mb. rewrite Mb, N.
    reflexivity.
  - intros bodyReader e Mb N H. apply marshals_marshal_body in Mb. rewrite Mb, N.
    cbv zeta. rewrite H. split; reflexivity.
  - intros prefix e H. rewrite H. split; reflexivity.
Qed.

Lemma doRequest_local_failures_witness :
  let env := test_env refresh_401 ok_abc (ReadErr (ErrOther "unexpected EOF")) in
  @doRequest env test_cfg string string failing_Marshaler text_Unmarshaler
    "POST" "/v2/invoice" (Some "{invoice}") (Some "") world_valid =
    (Some (ErrWrap "failed to marshal request body: "
             (ErrOther "json: unsupported value")), Some "",
     (ensureToken env test_cfg world_valid).2) /\
  (@doRequest env test_cfg string string text_Marshaler text_Unmarshaler
     "GET" "/v2/payment/1" None (Some "") world_valid).1 =
    (Some (ErrWrap "failed to read response body: " (ErrOther "unexpected EOF")),
     Some "").
Proof.
  cbv zeta.
  assert (E : (ensureToken (test_env refresh_401 ok_abc
                              (ReadErr (ErrOther "unexpected EOF")))
                 test_cfg world_valid).1 = None) by (vm_compute; reflexivity).
  split.
  - destruct (@doRequest_local_failures _ test_cfg string string failing_Marshaler
                text_Unmarshaler "POST" "/v2/invoice" (Some "{invoice}") (Some "")
                world_valid E) as (Mar & _).
    apply (Mar "{invoice}"); reflexivity.
  - destruct (@doRequest_local_failures _ test_cfg string string text_Marshaler
                text_Unmarshaler "GET" "/v2/payment/1" None (Some "")
                world_valid E) as (_ & _ & Rd & _).
    apply (Rd None (ErrOther "unexpected EOF")); vm_compute; reflexivity.
Defined.

(** X4 (client.go:178-184): what [doRequest] does with an answer inside
    [200,300).  With a nil destination it returns nil whatever the body is;
    with an empty body it returns nil and leaves the destination as it was;
    otherwise the body is decoded into the destination, and a decoding error
    is returned wrapped under "failed to unmarshal response: ", which is not
    an [Error] for [IsQPayError]. *)
Theorem doRequest_decodes_2xx (env : Env) (cfg : Config)
    {B A : Type} `{!Marshaler B} `{!Unmarshaler A}
    (method path : string) (body : option B) (result : option A) (w : World)
    (bodyReader : option string) (status : Z) (respBody : string) :
  (ensureToken env cfg w).1 = None ->
  marshals body bodyReader ->
  newRequest env method (BaseURL cfg +:+ path) = None ->
  let w1 := (ensureToken env cfg w).2 in
  http_do env (requests (trace w1))
    (domainRequest cfg method path (accessToken (client w1)) bodyReader) =
    Response status respBody ->
  200 <= status < 300 ->
  let out := (doRequest env cfg method path body result w).1 in
  (result = None -> out = (None, None)) /\
  (respBody = "" -> out = (None, result)) /\
  (forall dst dst',
     result = Some dst -> respBody <> "" ->
     json_Unmarshal respBody dst = (dst', None) ->
     out = (None, Some dst')) /\
  (forall dst dst' e,
     result = Some dst -> respBody <> "" ->
     json_Unmarshal respBody dst = (dst', Some e) ->
     out = (Some (ErrWrap "failed to unmarshal response: " e), Some dst') /\
     IsQPayError out.1 = (None, false)).
Proof.
  intros E Mb N. cbv zeta. intros H S.
  rewrite doRequest_run. cbv zeta. rewrite E.
  apply marshals_marshal_body in Mb. rewrite Mb, N. cbv zeta. rewrite H.
  rewrite (proj2 (not_2xx_false status) S). cbn [fst].
  unfold decode_result. split; [|split; [|split]].
  - intros ->. reflexivity.
  - intros ->. destruct result; reflexivity.
  - intros dst dst' -> NE J. apply nonempty_true in NE. rewrite NE, J. reflexivity.
  - intros dst dst' e -> NE J. apply nonempty_true in NE. rewrite NE, J.
    split; reflexivity.
Qed.

Lemma doRequest_decodes_2xx_witness :
  let env := test_env refresh_401 ok_abc (Response 200 "{payment}") in
  (@doRequest env test_cfg string string text_Marshaler text_Unmarshaler
     "GET" "/v2/payment/1" None (Some "") world_valid).1 =
    (None, Some "{payment}") /\
  (@doRequest env test_cfg string string text_Marshaler failing_Unmarshaler
     "GET" "/v2/payment/1" None (Some "") world_valid).1 =
    (Some (ErrWrap "failed to unmarshal response: " (ErrOther "invalid character")),
     Some "").
Proof.
  cbv zeta.
  assert (E : (ensureToken (test_env refresh_401 ok_abc (Response 200 "{payment}"))
                 test_cfg world_valid).1 = None) by (vm_compute; reflexivity).
  assert (S : 200 <= 200 < 300) by lia.
  split.
  - destruct (@doRequest_decodes_2xx _ test_cfg string string text_Marshaler
                text_Unmarshaler "GET" "/v2/payment/1" None (Some "") world_valid
                None 200 "{payment}" E eq_refl eq_refl eq_refl S)
      as (_ & _ & Dec & _).
    apply (Dec ""); [reflexivity|discriminate|reflexivity].
  - destruct (@doRequest_decodes_2xx _ test_cfg string string text_Marshaler
                failing_Unmarshaler "GET" "/v2/payment/1" None (Some "") world_valid
                None 200 "{payment}" E eq_refl eq_refl eq_refl S)
      as (_ & _ & _ & Bad).
    apply (Bad "" "" (ErrOther "invalid character"));
      [reflexivity|discriminate|reflexivity].
Defined.

(** X5 (client.go:130, 150): the domain request carries the token that
    [ensureToken] has just obtained.  When the access token fails its test
    and the call authenticates (in full when no refresh is possible, by
    refresh when one is), the requests of [doRequest] are that one
    authentication request followed by the domain request, whose bearer
    credential is the [access_token] of the answer, not the token held before
    the call. *)
Theorem doRequest_sends_new_token (env : Env) (cfg : Config)
    {B A : Type} `{!Marshaler B} `{!Unmarshaler A}
    (method path : string) (body : option B) (result : option A) (w : World)
    (bodyReader : option string) (token : TokenResponse) :
  accessToken (client w) = "" \/
    clock w >= sub64 (expiresAt (client w)) tokenBufferSeconds ->
  marshals body bodyReader ->
  newRequest env method (BaseURL cfg +:+ path) = None ->
  let run := doRequest env cfg method path body result w in
  (refreshToken (client w) = "" \/
     clock w >= sub64 (refreshExpiresAt (client w)) tokenBufferSeconds ->
   (getTokenRequest env cfg w).1 = Ok token ->
   requests (emitted w run.2) =
     [tokenRequest cfg; domainRequest cfg method path (AccessToken token) bodyReader] /\
   client run.2 = stored token) /\
  (refreshToken (client w) <> "" ->
   clock w < sub64 (refreshExpiresAt (client w)) tokenBufferSeconds ->
   (doRefreshTokenHTTP env cfg (refreshToken (client w)) w).1 = Ok token ->
   requests (emitted w run.2) =
     [refreshRequest cfg (refreshToken (client w));
      domainRequest cfg method path (AccessToken token) bodyReader] /\
   client run.2 = stored token).
Proof.
  intros Stale Mb N. cbv zeta. rewrite doRequest_run. cbv zeta.
  apply marshals_marshal_body in Mb. rewrite Mb, N. cbv zeta. split.
  - intros NoR G. rewrite (ensureToken_full_auth_ok env cfg w token Stale NoR G).
    cbn [fst snd client]. split; [|reflexivity].
    erewrite emitted_extend.
    2:{ unfold extend. cbn [trace]. rewrite <- !app_assoc. reflexivity. }
    rewrite !requests_app, requests_prelude, requests_store_events. reflexivity.
  - intros NE L G. rewrite (ensureToken_refresh_ok env cfg w token Stale NE L G).
    cbn [fst snd client]. split; [|reflexivity].
    erewrite emitted_extend.
    2:{ unfold extend. cbn [trace]. rewrite <- !app_assoc. reflexivity. }
    rewrite !requests_app, requests_prelude, requests_store_events. reflexivity.
Qed.

Lemma doRequest_sends_new_token_witness :
  let env := test_env ok_new ok_abc (Response 200 "") in
  requests (emitted world_new
    (@doRequest env test_cfg string string text_Marshaler text_Unmarshaler
       "GET" "/v2/payment/1" None (Some "") world_new).2) =
    [tokenRequest test_cfg;
     domainRequest test_cfg "GET" "/v2/payment/1" "access-abc" None] /\
  requests (emitted world_expired
    (@doRequest env test_cfg string string text_Marshaler text_Unmarshaler
       "GET" "/v2/payment/1" None (Some "") world_expired).2) =
    [refreshRequest test_cfg "refresh-xyz";
     domainRequest test_cfg "GET" "/v2/payment/1" "access-new" None].
Proof.
  cbv zeta. split.
  - destruct (@doRequest_sends_new_token (test_env ok_new ok_abc (Response 200 ""))
                test_cfg string string text_Marshaler text_Unmarshaler
                "GET" "/v2/payment/1" None (Some "") world_new None token_abc)
      as (Full & _).
    + left. reflexivity.
    + reflexivity.
    + reflexivity.
    + apply Full; [left; reflexivity|vm_compute; reflexivity].
  - destruct (@doRequest_sends_new_token (test_env ok_new ok_abc (Response 200 ""))
                test_cfg string string text_Marshaler text_Unmarshaler
                "GET" "/v2/payment/1" None (Some "") world_expired None token_new)
      as (_ & Refresh).
    + right. vm_compute. discriminate.
    + reflexivity.
    + reflexivity.
    + apply Refresh; [discriminate|vm_compute; reflexivity|vm_compute; reflexivity].
Defined.

Section MoreTokens.

Variable env : Env.
Variable cfg : Config.

(** The error of the full authentication on an answer outside [200,300). *)
Lemma getTokenRequest_not_2xx (w : World) (status : Z) (body : string) :
  newRequest env "POST" (BaseURL cfg +:+ "/v2/auth/token") = None ->
  http_do env (requests (trace w)) (tokenRequest cfg) = Response status body ->
  status < 200 \/ status >= 300 ->
  (getTokenRequest env cfg w).1 =
  Fail (ErrQPay (Some (classify_error env status body))).
Proof.
  intros N H S. unfold getTokenRequest, doBasicAuthRequest. rewrite N.
  unfold_m. cbn. unfold tokenRequest in H. rewrite H.
  rewrite (proj2 (not_2xx_true status) S). reflexivity.
Qed.

(** The error of the refresh on an answer outside [200,300). *)
Lemma doRefreshTokenHTTP_not_2xx (tok : string) (w : World) (status : Z)
    (body : string) :
  newRequest env "POST" (BaseURL cfg +:+ "/v2/auth/refresh") = None ->
  http_do env (requests (trace w)) (refreshRequest cfg tok) = Response status body ->
  status < 200 \/ status >= 300 ->
  (doRefreshTokenHTTP env cfg tok w).1 =
  Fail (ErrQPay (Some (json_Unmarshal_Error env body (mkError status "" "" body)))).
Proof.
  intros N H S. unfold doRefreshTokenHTTP. rewrite N.
  unfold_m. cbn. unfold refreshRequest in H. rewrite H.
  rewrite (proj2 (not_2xx_true status) S). reflexivity.
Qed.

Lemma json_Unmarshal_Error_untagged (body : string) (q : Error) :
  StatusCode (json_Unmarshal_Error env body q) = StatusCode q /\
  RawBody (json_Unmarshal_Error env body q) = RawBody q.
Proof.
  unfold json_Unmarshal_Error. destruct (json_error_fields env body). split; reflexivity.
Qed.

Lemma GetToken_history (w v : World) :
  requests (trace w) = requests (trace v) ->
  (GetToken env cfg w).1 = (GetToken env cfg v).1.
Proof.
  intros E. rewrite !GetToken_run.
  rewrite (getTokenRequest_history env cfg w v E).
  destruct ((getTokenRequest env cfg v).1); reflexivity.
Qed.

Lemma lock_write_discipline (held held' : bool) (evs : list Event) :
  lock_discipline held evs = Some held' -> write_discipline held evs = Some held'.
Proof.
  revert held. induction evs as [|ev evs IH]; intros held H; [exact H|].
  destruct ev; cbn in *; try (apply IH; exact H);
    destruct held; try discriminate; apply IH; exact H.
Qed.

Lemma write_discipline_app (held : bool) (a b : list Event) :
  write_discipline held (a ++ b) =
  match write_discipline held a with
  | Some held' => write_discipline held' b
  | None => None
  end.
Proof.
  revert held. induction a as [|ev a IH]; intros held; [reflexivity|].
  destruct ev; cbn; try apply IH. destruct held; [apply IH|reflexivity].
Qed.

End MoreTokens.

(** X6 (unnamed/part_001:7-18, 39-45): [GetToken] authenticates
    unconditionally.  It looks at no token field and at no clock: whenever
    the request can be built it sends exactly the basic-auth request to
    /v2/auth/token, also when a fresh token is cached, and its result depends
    on the exchange only.  A token it returns is the one it has stored.  An
    answer outside [200,300) comes back as the bare [Error] with the
    defaults applied, so [IsQPayError] recovers it (unlike the same failure
    met through [ensureToken]), and the fields stay as they were. *)
Theorem GetToken_unconditional (env : Env) (cfg : Config) (w : World) :
  let run := GetToken env cfg w in
  (newRequest env "POST" (BaseURL cfg +:+ "/v2/auth/token") = None ->
   requests (emitted w run.2) = [tokenRequest cfg]) /\
  (forall e,
     newRequest env "POST" (BaseURL cfg +:+ "/v2/auth/token") = Some e ->
     run.1 = Fail (ErrWrap "failed to create request: " e) /\
     requests (emitted w run.2) = [] /\ client run.2 = client w) /\
  (forall v, requests (trace v) = requests (trace w) -> (GetToken env cfg v).1 = run.1) /\
  (forall token, run.1 = Ok token -> client run.2 = stored token) /\
  (forall status body,
     newRequest env "POST" (BaseURL cfg +:+ "/v2/auth/token") = None ->
     http_do env (requests (trace w)) (tokenRequest cfg) = Response status body ->
     status < 200 \/ status >= 300 ->
     run.1 = Fail (ErrQPay (Some (classify_error env status body))) /\
     IsQPayError (Some (ErrQPay (Some (classify_error env status body)))) =
       (Some (classify_error env status body), true) /\
     StatusCode (classify_error env status body) = status /\
     client run.2 = client w).
Proof.
  cbv zeta. split; [|split; [|split; [|split]]].
  - intros N. rewrite GetToken_run.
    assert (S : token_sent env cfg = [EvHTTP (tokenRequest cfg)]).
    { unfold token_sent. rewrite N. reflexivity. }
    destruct ((getTokenRequest env cfg w).1); cbn [snd];
      (erewrite emitted_extend;
       [|unfold install, extend; cbn [trace]; rewrite <- ?app_assoc; reflexivity]);
      rewrite ?requests_app, S; reflexivity.
  - intros e N. rewrite GetToken_run.
    unfold getTokenRequest, doBasicAuthRequest, token_sent. rewrite N. cbn.
    split; [reflexivity|]. split; [|reflexivity].
    erewrite emitted_extend; [|reflexivity]. reflexivity.
  - intros v E. apply GetToken_history. exact E.
  - intros token H. rewrite GetToken_run in *.
    destruct ((getTokenRequest env cfg w).1); cbn in H |- *; congruence.
  - intros status body N H S. rewrite GetToken_run.
    rewrite (getTokenRequest_not_2xx env cfg w status body N H S).
    split; [reflexivity|]. split; [reflexivity|]. split; [|reflexivity].
    rewrite classify_error_spec. reflexivity.
Qed.

(** X7 (unnamed/part_001:22-37, client.go:86-120): [RefreshToken] has none
    of the guards of [ensureToken].  Whenever the request can be built it
    sends the refresh request with the stored refresh token as bearer
    credential, also when that token is empty or past its expiry; its result
    is that of the refresh exchange, returned as it is (no wrapping), a
    returned token being the one stored; and on an answer outside [200,300)
    the error is an [Error] that [IsQPayError] recovers, with the status
    and the raw body of the answer, the fields staying as they were. *)
Theorem RefreshToken_unguarded (env : Env) (cfg : Config) (w : World) :
  let rt := refreshToken (client w) in
  let run := Client_RefreshToken env cfg w in
  (newRequest env "POST" (BaseURL cfg +:+ "/v2/auth/refresh") = None ->
   requests (emitted w run.2) = [refreshRequest cfg rt]) /\
  run.1 = (doRefreshTokenHTTP env cfg rt w).1 /\
  (forall token, run.1 = Ok token -> client run.2 = stored token) /\
  (forall status body,
     newRequest env "POST" (BaseURL cfg +:+ "/v2/auth/refresh") = None ->
     http_do env (requests (trace w)) (refreshRequest cfg rt) = Response status body ->
     status < 200 \/ status >= 300 ->
     exists qErr,
       run.1 = Fail (ErrQPay (Some qErr)) /\
       IsQPayError (Some (ErrQPay (Some qErr))) = (Some qErr, true) /\
       StatusCode qErr = status /\ RawBody qErr = body /\
       client run.2 = client w).
Proof.
  cbv zeta. rewrite Client_RefreshToken_run. cbv zeta.
  split; [|split; [|split]].
  - intros N.
    assert (S : refresh_sent env cfg (refreshToken (client w)) =
                [EvHTTP (refreshRequest cfg (refreshToken (client w)))]).
    { unfold refresh_sent. rewrite N. reflexivity. }
    destruct ((doRefreshTokenHTTP env cfg (refreshToken (client w)) w).1); cbn [snd];
      (erewrite emitted_extend;
       [|unfold install, extend; cbn [trace]; rewrite <- ?app_assoc; reflexivity]);
      rewrite ?requests_app, S; reflexivity.
  - destruct ((doRefreshTokenHTTP env cfg (refreshToken (client w)) w).1); reflexivity.
  - intros token H.
    destruct ((doRefreshTokenHTTP env cfg (refreshToken (client w)) w).1);
      cbn in H |- *; congruence.
  - intros status body N H S.
    rewrite (doRefreshTokenHTTP_not_2xx env cfg _ w status body N H S).
    eexists. split; [reflexivity|]. split; [reflexivity|].
    destruct (json_Unmarshal_Error_untagged env body (mkError status "" "" body))
      as [E1 E2].
    rewrite E1, E2. repeat split.
Qed.

(** X8 (client.go:29-44, 46-83): when the access token fails its test and
    the refresh token is empty or past its window, [ensureToken] goes
    straight to the full authentication: it sends no refresh request, only
    the basic-auth request to /v2/auth/token (when it can be built), and ends
    as that authentication does, storing the token or returning the failure
    wrapped with the fields untouched.  This is the first call of every
    client made by [NewClient] or [NewClientWithHTTPClient], whatever the
    clock. *)
Theorem ensureToken_without_refresh (env : Env) (cfg : Config) (w : World) :
  let run := ensureToken env cfg w in
  let outcome :=
    (newRequest env "POST" (BaseURL cfg +:+ "/v2/auth/token") = None ->
     requests (emitted w run.2) = [tokenRequest cfg]) /\
    (forall e,
       newRequest env "POST" (BaseURL cfg +:+ "/v2/auth/token") = Some e ->
       requests (emitted w run.2) = []) /\
    match (getTokenRequest env cfg w).1 with
    | Ok token => run.1 = None /\ client run.2 = stored token
    | Fail e =>
        run.1 = Some (ErrWrap "failed to get token: " e) /\ client run.2 = client w
    end in
  ((accessToken (client w) = "" \/
      clock w >= sub64 (expiresAt (client w)) tokenBufferSeconds) ->
   (refreshToken (client w) = "" \/
      clock w >= sub64 (refreshExpiresAt (client w)) tokenBufferSeconds) ->
   outcome) /\
  (client w = NewClient cfg -> outcome) /\
  (client w = NewClientWithHTTPClient cfg -> outcome).
Proof.
  cbv zeta.
  assert (Main :
    (accessToken (client w) = "" \/
       clock w >= sub64 (expiresAt (client w)) tokenBufferSeconds) ->
    (refreshToken (client w) = "" \/
       clock w >= sub64 (refreshExpiresAt (client w)) tokenBufferSeconds) ->
    (newRequest env "POST" (BaseURL cfg +:+ "/v2/auth/token") = None ->
     requests (emitted w (ensureToken env cfg w).2) = [tokenRequest cfg]) /\
    (forall e,
       newRequest env "POST" (BaseURL cfg +:+ "/v2/auth/token") = Some e ->
       requests (emitted w (ensureToken env cfg w).2) = []) /\
    match (getTokenRequest env cfg w).1 with
    | Ok token =>
        (ensureToken env cfg w).1 = None /\
        client (ensureToken env cfg w).2 = stored token
    | Fail e =>
        (ensureToken env cfg w).1 = Some (ErrWrap "failed to get token: " e) /\
        client (ensureToken env cfg w).2 = client w
    end).
  { intros Stale NoR.
    rewrite ensureToken_stale_run by (apply access_fresh_false; exact Stale).
    cbv zeta. rewrite can_refresh_false by exact NoR.
    rewrite ensureToken_fullAuth_run.
    rewrite (getTokenRequest_history env cfg _ w).
    2:{ unfold extend. cbn [trace]. rewrite requests_app, requests_prelude.
        apply app_nil_r. }
    assert (Em : forall evs,
      requests (emitted w (extend (extend w (prelude (client w)))
                             (token_sent env cfg ++ evs))) =
      requests (token_sent env cfg) ++ requests evs).
    { intros evs. erewrite emitted_extend.
      2:{ unfold extend. cbn [trace]. rewrite <- !app_assoc. reflexivity. }
      rewrite !requests_app, requests_prelude. reflexivity. }
    assert (Em' : forall c evs,
      emitted w (mkWorld c (trace (extend (extend w (prelude (client w)))
                                     (token_sent env cfg ++ evs))) (clock w)) =
      emitted w (extend (extend w (prelude (client w))) (token_sent env cfg ++ evs)))
      by reflexivity.
    destruct ((getTokenRequest env cfg w).1) as [token|e].
    - replace (install token (extend (extend w (prelude (client w)))
                                (token_sent env cfg)))
        with (mkWorld (stored token)
                (trace (extend (extend w (prelude (client w)))
                          (token_sent env cfg ++ store_events))) (clock w)).
      2:{ unfold install, extend. cbn [trace client clock].
          rewrite <- !app_assoc. reflexivity. }
      cbn [fst snd]. rewrite Em', Em, requests_store_events, app_nil_r.
      unfold token_sent. split; [|split; [|split; reflexivity]].
      + intros N. rewrite N. reflexivity.
      + intros e N. rewrite N. reflexivity.
    - cbn [fst snd]. specialize (Em []). rewrite !app_nil_r in Em. rewrite Em.
      unfold token_sent. split; [|split; [|split; reflexivity]].
      + intros N. rewrite N. reflexivity.
      + intros e' N. rewrite N. reflexivity. }
  split; [exact Main|]. split.
  - intros E. apply Main; left; rewrite E; reflexivity.
  - intros E. apply Main; left; rewrite E; reflexivity.
Qed.

(** X9 (client.go:14, 51): the expiry test subtracts the margin in int64.
    For a stored [expiresAt] within 30 of the least int64 the difference
    wraps to a value above every clock below 2^63 - 30: a non-empty access
    token then passes the test, and [ensureToken] returns nil without any
    request, although the clock is past the expiry minus the margin as exact
    integers. *)
Theorem ensureToken_expiry_wraps (env : Env) (cfg : Config) (w : World) :
  accessToken (client w) <> "" ->
  - 2 ^ 63 <= expiresAt (client w) < - 2 ^ 63 + tokenBufferSeconds ->
  - 2 ^ 63 <= clock w < 2 ^ 63 - tokenBufferSeconds ->
  clock w >= expiresAt (client w) - tokenBufferSeconds /\
  (ensureToken env cfg w).1 = None /\
  requests (emitted w (ensureToken env cfg w).2) = [] /\
  client (ensureToken env cfg w).2 = client w.
Proof.
  intros NE He Hc. unfold tokenBufferSeconds in *.
  split; [lia|].
  rewrite ensureToken_fresh_run.
  - split; [reflexivity|]. split; [|reflexivity].
    erewrite emitted_extend; [|reflexivity]. reflexivity.
  - apply access_fresh_spec. split; [exact NE|].
    unfold sub64, wrap64, tokenBufferSeconds.
    replace ((expiresAt (client w) - 30 + 2 ^ 63) mod 2 ^ 64)
      with (expiresAt (client w) - 30 + 2 ^ 63 + 2 ^ 64).
    + lia.
    + apply Z.mod_unique with (q := -1); lia.
Qed.

Lemma ensureToken_expiry_wraps_witness :
  let env := test_env refresh_401 auth_401 api_400 in
  clock world_least_expiry >= expiresAt (client world_least_expiry) - tokenBufferSeconds /\
  (ensureToken env test_cfg world_least_expiry).1 = None /\
  requests (emitted world_least_expiry
              (ensureToken env test_cfg world_least_expiry).2) = [] /\
  client (ensureToken env test_cfg world_least_expiry).2 = client world_least_expiry.
Proof.
  cbv zeta.
  apply (ensureToken_expiry_wraps (test_env refresh_401 auth_401 api_400) test_cfg
           world_least_expiry).
  - discriminate.
  - vm_compute. split; [discriminate|reflexivity].
  - vm_compute. split; [discriminate|reflexivity].
Defined.

(** X10 (client.go:46-83, 122-127, 129-185; unnamed/part_001:7-37): on
    every path of [ensureToken], [GetToken], [RefreshToken] and [doRequest]
    each write of a token field happens between [Lock] and [Unlock], each
    HTTP exchange happens with the mutex released, and the mutex is released
    at the end. *)
Theorem writes_locked_network_unlocked (env : Env) (cfg : Config)
    {B A : Type} `{!Marshaler B} `{!Unmarshaler A}
    (method path : string) (body : option B) (result : option A) (w : World) :
  (write_discipline false (emitted w (ensureToken env cfg w).2) = Some false /\
   network_unlocked false (emitted w (ensureToken env cfg w).2) = true) /\
  (write_discipline false (emitted w (GetToken env cfg w).2) = Some false /\
   network_unlocked false (emitted w (GetToken env cfg w).2) = true) /\
  (write_discipline false (emitted w (Client_RefreshToken env cfg w).2) = Some false /\
   network_unlocked false (emitted w (Client_RefreshToken env cfg w).2) = true) /\
  (write_discipline false
     (emitted w (doRequest env cfg method path body result w).2) = Some false /\
   network_unlocked false
     (emitted w (doRequest env cfg method path body result w).2) = true).
Proof.
  assert (D : forall w' evs, trace w' = trace w ++ evs -> disciplined evs ->
              write_discipline false (emitted w w') = Some false /\
              network_unlocked false (emitted w w') = true).
  { intros w' evs T [L N]. rewrite (emitted_extend _ _ _ T).
    split; [apply lock_write_discipline; exact L|exact N]. }
  destruct (ensureToken_disciplined env cfg w) as (e1 & T1 & D1).
  destruct (GetToken_disciplined env cfg w) as (e2 & T2 & D2).
  destruct (Client_RefreshToken_disciplined env cfg w) as (e3 & T3 & D3).
  split; [exact (D _ _ T1 D1)|]. split; [exact (D _ _ T2 D2)|].
  split; [exact (D _ _ T3 D3)|].
  rewrite doRequest_run. cbv zeta.
  destruct ((ensureToken env cfg w).1) as [err|]; [exact (D _ _ T1 D1)|].
  destruct (marshal_body body) as [bodyReader|err]; [|exact (D _ _ T1 D1)].
  destruct (newRequest env method (BaseURL cfg +:+ path)); [exact (D _ _ T1 D1)|].
  cbn [snd]. set (req := domainRequest cfg method path _ bodyReader).
  assert (T' : trace (extend (ensureToken env cfg w).2 [EvRead FAccessToken; EvHTTP req])
               = trace w ++ e1 ++ [EvRead FAccessToken; EvHTTP req]).
  { unfold extend. cbn [trace]. rewrite T1, <- app_assoc. reflexivity. }
  rewrite (emitted_extend _ _ _ T'). destruct D1 as [L N]. split.
  - rewrite write_discipline_app, (lock_write_discipline _ _ _ L). reflexivity.
  - rewrite (network_unlocked_app false false _ _ L), N. reflexivity.
Qed.

(** X11 (client.go:163-176, 207-220): the [Error] that [doRequest] and
    [doBasicAuthRequest] build for an answer outside [200,300).
    [StatusCode] is the status and [RawBody] the body, always.  [Code] is the
    [error] field of the body when the decoder yields a non-empty one, and
    the status text otherwise (no field, or an empty one); [Message] is the
    [message] field when non-empty and the whole body otherwise; the two
    defaults apply independently.  [GetToken] returns exactly this value. *)
Theorem error_classification (env : Env) (cfg : Config) (status : Z) (body : string) :
  let decoded := json_error_fields env body in
  let qErr := classify_error env status body in
  StatusCode qErr = status /\
  RawBody qErr = body /\
  (forall code, decoded.1 = Some code -> code <> "" -> Code qErr = code) /\
  (decoded.1 = None \/ decoded.1 = Some "" -> Code qErr = StatusText env status) /\
  (forall message, decoded.2 = Some message -> message <> "" ->
                   Message qErr = message) /\
  (decoded.2 = None \/ decoded.2 = Some "" -> Message qErr = body) /\
  (forall w,
     newRequest env "POST" (BaseURL cfg +:+ "/v2/auth/token") = None ->
     http_do env (requests (trace w)) (tokenRequest cfg) = Response status body ->
     status < 200 \/ status >= 300 ->
     (GetToken env cfg w).1 = Fail (ErrQPay (Some qErr))).
Proof.
  cbv zeta. rewrite classify_error_spec. cbv zeta.
  destruct (json_error_fields env body) as [c m] eqn:J. cbn [fst snd].
  split; [reflexivity|]. split; [reflexivity|].
  split; [|split; [|split; [|split]]].
  - intros code -> NE. cbn. apply String.eqb_neq in NE. rewrite NE. reflexivity.
  - intros [->| ->]; reflexivity.
  - intros message -> NE. cbn. apply String.eqb_neq in NE. rewrite NE. reflexivity.
  - intros [->| ->]; reflexivity.
  - intros w N H S. rewrite GetToken_run.
    rewrite (getTokenRequest_not_2xx env cfg w status body N H S).
    rewrite classify_error_spec. cbv zeta. rewrite J. reflexivity.
Qed.

(** X12 (client.go:74-82, 122-127, 51): [ensureToken] stores what the
    server returns without looking at it.  When a full authentication yields
    a token whose access token is empty or already past its expiry minus the
    margin, the call still returns nil with that token stored, and the very
    next call at the same clock is no cache hit: it goes to the network
    again, with a refresh when the refresh token of the answer is usable and
    with a full authentication otherwise. *)
Theorem ensureToken_stores_unchecked (env : Env) (cfg : Config) (w : World)
    (token : TokenResponse) :
  accessToken (client w) = "" \/
    clock w >= sub64 (expiresAt (client w)) tokenBufferSeconds ->
  refreshToken (client w) = "" \/
    clock w >= sub64 (refreshExpiresAt (client w)) tokenBufferSeconds ->
  (getTokenRequest env cfg w).1 = Ok token ->
  AccessToken token = "" \/
    clock w >= sub64 (ExpiresIn token) tokenBufferSeconds ->
  newRequest env "POST" (BaseURL cfg +:+ "/v2/auth/refresh") = None ->
  let w1 := (ensureToken env cfg w).2 in
  let w2 := (ensureToken env cfg w1).2 in
  (ensureToken env cfg w).1 = None /\
  client w1 = stored token /\
  ((RefreshToken token <> "" /\
    clock w < sub64 (RefreshExpiresIn token) tokenBufferSeconds ->
    exists rest,
      requests (emitted w1 w2) = refreshRequest cfg (RefreshToken token) :: rest) /\
   (RefreshToken token = "" \/
    clock w >= sub64 (RefreshExpiresIn token) tokenBufferSeconds ->
    requests (emitted w1 w2) = [tokenRequest cfg])).
Proof.
  intros Stale NoR G Bad Nr. cbv zeta.
  pose proof (getTokenRequest_ok_sent env cfg w token G) as Sent.
  rewrite (ensureToken_full_auth_ok env cfg w token Stale NoR G). cbn [fst snd].
  clear G. set (w1 := mkWorld (stored token) _ (clock w)).
  split; [reflexivity|]. split; [reflexivity|].
  assert (F1 : access_fresh (clock w1) (client w1) = false).
  { apply access_fresh_false. exact Bad. }
  split.
  - intros [NE L].
    rewrite (ensureToken_stale_run env cfg w1 F1). cbv zeta.
    replace (can_refresh (clock w1) (client w1)) with true
      by (symmetry; apply can_refresh_true; assumption).
    assert (RS : refresh_sent env cfg (refreshToken (client w1)) =
                 [EvHTTP (refreshRequest cfg (RefreshToken token))]).
    { unfold refresh_sent. rewrite Nr. reflexivity. }
    destruct ((doRefreshTokenHTTP env cfg (refreshToken (client w1)) _).1) as [t'|e'].
    + eexists. erewrite emitted_extend.
      2:{ unfold install, extend. cbn [trace]. rewrite <- !app_assoc. reflexivity. }
      rewrite !requests_app, requests_prelude, RS. reflexivity.
    + rewrite ensureToken_fullAuth_run.
      match goal with |- context [(getTokenRequest env cfg ?v).1] =>
        destruct ((getTokenRequest env cfg v).1) as [t'|e''] end;
        eexists; (erewrite emitted_extend;
          [|unfold install, extend; cbn [snd trace]; rewrite <- !app_assoc;
            reflexivity]);
        rewrite !requests_app, requests_prelude, RS; reflexivity.
  - intros NoR1.
    rewrite (ensureToken_stale_run env cfg w1 F1). cbv zeta.
    replace (can_refresh (clock w1) (client w1)) with false
      by (symmetry; apply can_refresh_false; exact NoR1).
    rewrite ensureToken_fullAuth_run. rewrite Sent.
    match goal with |- context [(getTokenRequest env cfg ?v).1] =>
      destruct ((getTokenRequest env cfg v).1) as [t'|e''] end;
      (erewrite emitted_extend;
        [|unfold install, extend; cbn [snd trace]; rewrite <- !app_assoc;
          reflexivity]);
      rewrite !requests_app, requests_prelude; reflexivity.
Qed.

Lemma ensureToken_stores_unchecked_witness :
  let env := test_env ok_new ok_abc api_400 in
  let w1 := (ensureToken env test_cfg world_new_late).2 in
  let w2 := (ensureToken env test_cfg w1).2 in
  (ensureToken env test_cfg world_new_late).1 = None /\
  client w1 = stored token_abc /\
  exists rest,
    requests (emitted w1 w2) = refreshRequest test_cfg "refresh-xyz" :: rest.
Proof.
  cbv zeta.
  destruct (ensureToken_stores_unchecked (test_env ok_new ok_abc api_400) test_cfg
              world_new_late token_abc) as (E & C & R & _).
  - left. reflexivity.
  - left. reflexivity.
  - vm_compute. reflexivity.
  - right. vm_compute. discriminate.
  - reflexivity.
  - split; [exact E|]. split; [exact C|].
    apply R. split; [discriminate|vm_compute; reflexivity].
Defined.

(** X13 (client.go:222-228, 74-82, 150; unnamed/part_001:39-45): an empty
    body on the token endpoint counts as success.  [doBasicAuthRequest]
    decodes nothing when an answer inside [200,300) has no body, so
    [getTokenRequest] returns the zero token: [GetToken] returns it, and
    [ensureToken] returns nil with all four fields at their zero values, as
    after [NewClient]; [doRequest] then sends the domain request with an
    empty bearer token. *)
Theorem empty_token_body_is_success (env : Env) (cfg : Config)
    {B A : Type} `{!Marshaler B} `{!Unmarshaler A}
    (method path : string) (body : option B) (result : option A) (w : World)
    (bodyReader : option string) (status : Z) :
  accessToken (client w) = "" \/
    clock w >= sub64 (expiresAt (client w)) tokenBufferSeconds ->
  refreshToken (client w) = "" \/
    clock w >= sub64 (refreshExpiresAt (client w)) tokenBufferSeconds ->
  newRequest env "POST" (BaseURL cfg +:+ "/v2/auth/token") = None ->
  http_do env (requests (trace w)) (tokenRequest cfg) = Response status "" ->
  200 <= status < 300 ->
  marshals body bodyReader ->
  newRequest env method (BaseURL cfg +:+ path) = None ->
  (GetToken env cfg w).1 = Ok zeroTokenResponse /\
  (ensureToken env cfg w).1 = None /\
  client (ensureToken env cfg w).2 = NewClient cfg /\
  requests (emitted w (doRequest env cfg method path body result w).2) =
    [tokenRequest cfg; domainRequest cfg method path "" bodyReader].
Proof.
  intros Stale NoR Nt H S Mb N.
  pose proof (getTokenRequest_empty_body env cfg w status Nt H S) as G.
  split; [rewrite GetToken_run, G; reflexivity|].
  rewrite doRequest_run. cbv zeta.
  apply marshals_marshal_body in Mb. rewrite Mb, N.
  rewrite (ensureToken_full_auth_ok env cfg w zeroTokenResponse Stale NoR G).
  cbn [fst snd client]. split; [reflexivity|]. split; [reflexivity|].
  erewrite emitted_extend.
  2:{ unfold extend. cbn [trace]. rewrite <- !app_assoc. reflexivity. }
  rewrite !requests_app, requests_prelude, requests_store_events. reflexivity.
Qed.

Lemma empty_token_body_is_success_witness :
  let env := test_env refresh_401 (Response 200 "") (Response 200 "") in
  (GetToken env test_cfg world_new).1 = Ok zeroTokenResponse /\
  (ensureToken env test_cfg world_new).1 = None /\
  client (ensureToken env test_cfg world_new).2 = NewClient test_cfg /\
  requests (emitted world_new
    (@doRequest env test_cfg string string text_Marshaler text_Unmarshaler
       "GET" "/v2/payment/1" None (Some "") world_new).2) =
    [tokenRequest test_cfg; domainRequest test_cfg "GET" "/v2/payment/1" "" None].
Proof.
  cbv zeta.
  apply (@empty_token_body_is_success
           (test_env refresh_401 (Response 200 "") (Response 200 "")) test_cfg
           string string text_Marshaler text_Unmarshaler "GET" "/v2/payment/1"
           None (Some "") world_new None 200).
  - left. reflexivity.
  - left. reflexivity.
  - reflexivity.
  - vm_compute. reflexivity.
  - lia.
  - reflexivity.
  - reflexivity.
Defined.

Section MoreConfig.

Lemma canonical_order_names (environ : gmap string string) (name : string) :
  In name required_names ->
  exists l1 l2,
    canonical_order (config_of_env environ) =
    l1 ++ (name, Getenv environ name) :: l2.
Proof.
  unfold required_names, canonical_order, config_of_env. cbn.
  intros [<-|[<-|[<-|[<-|[<-|[]]]]]].
  - exists []. eexists. reflexivity.
  - eexists [_]. eexists. reflexivity.
  - eexists [_; _]. eexists. reflexivity.
  - eexists [_; _; _]. eexists. reflexivity.
  - eexists [_; _; _; _]. eexists. reflexivity.
Qed.

End MoreConfig.

(** X14 (config.go:41-46): with exactly one of the five variables unset
    or empty, the error of [LoadConfigFromEnv] is the same for every
    iteration order of the map: it names that variable. *)
Theorem LoadConfigFromEnv_single_missing (environ : gmap string string)
    (order : list (string * string)) (name : string) :
  iteration_order (config_of_env environ) order ->
  In name required_names ->
  environ !! name = None \/ environ !! name = Some "" ->
  (forall other, In other required_names -> other <> name ->
                 exists val, environ !! other = Some val /\ val <> "") ->
  LoadConfigFromEnv environ order =
  Fail (ErrOther ("required environment variable " +:+ name +:+ " is not set")).
Proof.
  intros P I Miss Others.
  pose proof (order_entries environ order P) as Mem.
  unfold LoadConfigFromEnv.
  destruct (range_required order) as [err|] eqn:R.
  - destruct (range_required_Some order err R) as (n & In_n & ->).
    apply Mem in In_n as [In_n G].
    destruct (String.eqb_spec n name) as [->|NE]; [reflexivity|].
    exfalso. destruct (Others n In_n NE) as (v & E & NV).
    symmetry in G. apply Getenv_empty in G as [G|G]; rewrite E in G;
      [discriminate|]. injection G as ->. apply NV. reflexivity.
  - exfalso.
    apply (range_required_None order R name (Getenv environ name)).
    + apply Mem. split; [exact I|reflexivity].
    + apply Getenv_empty. exact Miss.
Qed.

Lemma LoadConfigFromEnv_single_missing_witness :
  LoadConfigFromEnv environ_no_password
    (canonical_order (config_of_env environ_no_password)) =
  Fail (ErrOther "required environment variable QPAY_PASSWORD is not set") /\
  LoadConfigFromEnv environ_no_password
    (rev (canonical_order (config_of_env environ_no_password))) =
  Fail (ErrOther "required environment variable QPAY_PASSWORD is not set").
Proof.
  assert (Others : forall other, In other required_names -> other <> "QPAY_PASSWORD" ->
            exists val, environ_no_password !! other = Some val /\ val <> "").
  { unfold required_names. intros other [<-|[<-|[<-|[<-|[<-|[]]]]]] NE;
      try (eexists; split; [vm_compute; reflexivity|discriminate]).
    exfalso. apply NE. reflexivity. }
  assert (I : In "QPAY_PASSWORD" required_names).
  { unfold required_names. cbn. tauto. }
  assert (Miss : environ_no_password !! "QPAY_PASSWORD" = None \/
                 environ_no_password !! "QPAY_PASSWORD" = Some "").
  { left. vm_compute. reflexivity. }
  split.
  - apply (LoadConfigFromEnv_single_missing environ_no_password _ "QPAY_PASSWORD");
      [|exact I|exact Miss|exact Others].
    unfold iteration_order.
    rewrite (required_entries (config_of_env environ_no_password)). reflexivity.
  - apply (LoadConfigFromEnv_single_missing environ_no_password _ "QPAY_PASSWORD");
      [|exact I|exact Miss|exact Others].
    unfold iteration_order.
    rewrite (required_entries (config_of_env environ_no_password)).
    symmetry. apply Permutation_rev.
Defined.

(** X15 (config.go:41-46): which variable the error names is up to the
    iteration order.  For every variable that is unset or empty there is an
    order of the entries of the map under which [LoadConfigFromEnv] names
    exactly that one; with two of them missing, two runs can report different
    variables. *)
Theorem LoadConfigFromEnv_names_any_missing (environ : gmap string string)
    (name : string) :
  In name required_names ->
  environ !! name = None \/ environ !! name = Some "" ->
  exists order,
    iteration_order (config_of_env environ) order /\
    LoadConfigFromEnv environ order =
    Fail (ErrOther ("required environment variable " +:+ name +:+ " is not set")).
Proof.
  intros I Miss.
  destruct (canonical_order_names environ name I) as (l1 & l2 & E).
  exists ((name, Getenv environ name) :: l1 ++ l2). split.
  - unfold iteration_order.
    rewrite (required_entries (config_of_env environ)).
    fold (canonical_order (config_of_env environ)). rewrite E.
    apply Permutation_middle.
  - unfold LoadConfigFromEnv. cbn [range_required].
    apply Getenv_empty in Miss. rewrite Miss. reflexivity.
Qed.

Lemma LoadConfigFromEnv_names_any_missing_witness :
  (exists order,
     iteration_order (config_of_env environ_no_credentials) order /\
     LoadConfigFromEnv environ_no_credentials order =
     Fail (ErrOther "required environment variable QPAY_USERNAME is not set")) /\
  (exists order,
     iteration_order (config_of_env environ_no_credentials) order /\
     LoadConfigFromEnv environ_no_credentials order =
     Fail (ErrOther "required environment variable QPAY_PASSWORD is not set")).
Proof.
  split.
  - apply (LoadConfigFromEnv_names_any_missing environ_no_credentials "QPAY_USERNAME").
    + unfold required_names. cbn. tauto.
    + right. vm_compute. reflexivity.
  - apply (LoadConfigFromEnv_names_any_missing environ_no_credentials "QPAY_PASSWORD").
    + unfold required_names. cbn. tauto.
    + left. vm_compute. reflexivity.
Defined.

(** ** The domain operations *)

Section AllDomainOperations.

Variable env : Env.
Variable cfg : Config.

Context {CreateInvoiceRequest CreateSimpleInvoiceRequest
         CreateEbarimtInvoiceRequest InvoiceResponse PaymentDetail : Type}.
Context {PaymentCheckRequest PaymentCheckResponse : Type}.
Context {PaymentListRequest PaymentListResponse : Type}.
Context {PaymentCancelRequest PaymentRefundRequest : Type}.
Context {CreateEbarimtRequest EbarimtResponse : Type}.
Context {MInvoice : Marshaler CreateInvoiceRequest}
        {MSimple : Marshaler CreateSimpleInvoiceRequest}
        {MEbInvoice : Marshaler CreateEbarimtInvoiceRequest}
        {MCheck : Marshaler PaymentCheckRequest}
        {MList : Marshaler PaymentListRequest}
        {MCancel : Marshaler PaymentCancelRequest}
        {MRefund : Marshaler PaymentRefundRequest}
        {MEbarimt : Marshaler CreateEbarimtRequest}.
Context {UInvoice : Unmarshaler InvoiceResponse}
        {UDetail : Unmarshaler PaymentDetail}
        {UCheck : Unmarshaler PaymentCheckResponse}
        {UList : Unmarshaler PaymentListResponse}
        {UEbarimt : Unmarshaler EbarimtResponse}.

Ltac solve_op :=
  unfold value_op, error_op; intros w; cbv zeta;
  unfold CreateInvoice, CreateSimpleInvoice, CreateEbarimtInvoice, CancelInvoice,
    GetPayment, CheckPayment, ListPayments, CancelPayment, RefundPayment,
    CreateEbarimt, CancelEbarimt;
  unfold bind at 1;
  match goal with |- context [doRequest ?e ?c ?m ?p ?b ?r ?v] =>
    destruct (doRequest e c m p b r v) as [[[err|] resp] w'] end;
  reflexivity.

Lemma CreateInvoice_op (req : CreateInvoiceRequest) :
  value_op env cfg (CreateInvoice env cfg (InvoiceResponse := InvoiceResponse) req)
    "POST" "/v2/invoice" (Some req).
Proof. solve_op. Qed.

Lemma CreateSimpleInvoice_op (req : CreateSimpleInvoiceRequest) :
  value_op env cfg (CreateSimpleInvoice env cfg (InvoiceResponse := InvoiceResponse) req)
    "POST" "/v2/invoice" (Some req).
Proof. solve_op. Qed.

Lemma CreateEbarimtInvoice_op (req : CreateEbarimtInvoiceRequest) :
  value_op env cfg (CreateEbarimtInvoice env cfg (InvoiceResponse := InvoiceResponse) req)
    "POST" "/v2/invoice" (Some req).
Proof. solve_op. Qed.

Lemma CancelInvoice_op (invoiceID : string) :
  error_op env cfg (B := Empty_set) (CancelInvoice env cfg invoiceID)
    "DELETE" ("/v2/invoice/" +:+ invoiceID) None.
Proof. solve_op. Qed.

Lemma GetPayment_op (paymentID : string) :
  value_op env cfg (B := Empty_set)
    (GetPayment env cfg (PaymentDetail := PaymentDetail) paymentID)
    "GET" ("/v2/payment/" +:+ paymentID) None.
Proof. solve_op. Qed.

Lemma CheckPayment_op (req : PaymentCheckRequest) :
  value_op env cfg (CheckPayment env cfg (PaymentCheckResponse := PaymentCheckResponse) req)
    "POST" "/v2/payment/check" (Some req).
Proof. solve_op. Qed.

Lemma ListPayments_op (req : PaymentListRequest) :
  value_op env cfg (ListPayments env cfg (PaymentListResponse := PaymentListResponse) req)
    "POST" "/v2/payment/list" (Some req).
Proof. solve_op. Qed.

Lemma CancelPayment_op (paymentID : string) (req : PaymentCancelRequest) :
  error_op env cfg (CancelPayment env cfg paymentID req)
    "DELETE" ("/v2/payment/cancel/" +:+ paymentID) (Some req).
Proof. solve_op. Qed.

Lemma RefundPayment_op (paymentID : string) (req : PaymentRefundRequest) :
  error_op env cfg (RefundPayment env cfg paymentID req)
    "DELETE" ("/v2/payment/refund/" +:+ paymentID) (Some req).
Proof. solve_op. Qed.

Lemma CreateEbarimt_op (req : CreateEbarimtRequest) :
  value_op env cfg (CreateEbarimt env cfg (EbarimtResponse := EbarimtResponse) req)
    "POST" "/v2/ebarimt_v3/create" (Some req).
Proof. solve_op. Qed.

Lemma CancelEbarimt_op (paymentID : string) :
  value_op env cfg (B := Empty_set)
    (CancelEbarimt env cfg (EbarimtResponse := EbarimtResponse) paymentID)
    "DELETE" ("/v2/ebarimt_v3/" +:+ paymentID) None.
Proof. solve_op. Qed.

Lemma doRequest_sends_domain {B A} `{!Marshaler B} `{!Unmarshaler A}
    (method path : string) (body : option B) (result : option A) (w : World)
    (bodyReader : option string) :
  (ensureToken env cfg w).1 = None ->
  marshals body bodyReader ->
  sends_domain_request env cfg w (ensureToken env cfg w).2
    (doRequest env cfg method path body result w).2 method path bodyReader.
Proof.
  intros E Mb N.
  rewrite (doRequest_sends env cfg method path body result w bodyReader E Mb N).
  cbv zeta. cbn [snd].
  destruct (ensureToken_trace_extends env cfg w) as (evs & T).
  erewrite (emitted_extend w).
  2:{ unfold extend. cbn [trace]. rewrite T, <- app_assoc. reflexivity. }
  rewrite (emitted_extend _ _ _ T), requests_app. reflexivity.
Qed.

Lemma value_op_sends {B A} `{!Marshaler B} `{!Unmarshaler A}
    (op : M (res A)) (method path : string) (body : option B) (w : World)
    (bodyReader : option string) :
  value_op env cfg op method path body ->
  (ensureToken env cfg w).1 = None ->
  marshals body bodyReader ->
  sends_domain_request env cfg w (ensureToken env cfg w).2 (op w).2
    method path bodyReader.
Proof.
  intros V E Mb. rewrite (V w). cbv zeta. cbn [snd].
  apply doRequest_sends_domain; assumption.
Qed.

Lemma error_op_sends {B} `{!Marshaler B}
    (op : M (option error)) (method path : string) (body : option B) (w : World)
    (bodyReader : option string) :
  error_op env cfg op method path body ->
  (ensureToken env cfg w).1 = None ->
  marshals body bodyReader ->
  sends_domain_request env cfg w (ensureToken env cfg w).2 (op w).2
    method path bodyReader.
Proof.
  intros V E Mb. rewrite (V w). cbv zeta. cbn [snd].
  apply doRequest_sends_domain; assumption.
Qed.

Lemma value_op_result {B A} `{!Marshaler B} `{!Unmarshaler A}
    (op : M (res A)) (method path : string) (body : option B) (w : World)
    (bodyReader : option string) (status : Z) (respBody : string) :
  value_op env cfg op method path body ->
  (ensureToken env cfg w).1 = None ->
  200 <= status < 300 ->
  marshals body bodyReader ->
  answered env cfg (ensureToken env cfg w).2 method path bodyReader status respBody ->
  returns_decoded respBody (op w).1.
Proof.
  intros V E S Mb [N H]. rewrite (V w). cbv zeta. cbn [fst].
  rewrite (doRequest_sends env cfg method path body (Some go_zero) w bodyReader E Mb N).
  cbv zeta. cbn [fst]. unfold domainRequest in H. rewrite H.
  rewrite (proj2 (not_2xx_false status) S).
  unfold returns_decoded, decode_result. split; [|split].
  - intros ->. reflexivity.
  - intros v NE J. apply nonempty_true in NE. rewrite NE, J. reflexivity.
  - intros v e NE J. apply nonempty_true in NE. rewrite NE, J. reflexivity.
Qed.

Lemma error_op_result {B} `{!Marshaler B}
    (op : M (option error)) (method path : string) (body : option B) (w : World)
    (bodyReader : option string) (status : Z) (respBody : string) :
  error_op env cfg op method path body ->
  (ensureToken env cfg w).1 = None ->
  200 <= status < 300 ->
  marshals body bodyReader ->
  answered env cfg (ensureToken env cfg w).2 method path bodyReader status respBody ->
  (op w).1 = None.
Proof.
  intros V E S Mb [N H]. rewrite (V w). cbv zeta. cbn [fst].
  rewrite (doRequest_sends env cfg method path body None w bodyReader E Mb N).
  cbv zeta. cbn [fst]. unfold domainRequest in H. rewrite H.
  rewrite (proj2 (not_2xx_false status) S). reflexivity.
Qed.

(** X16 (unnamed/part_006:7-39, unnamed/part_007:422-460,
    unnamed/part_004:7-23): the request each domain operation sends.  Once
    [ensureToken] has returned nil, every operation sends, after the requests
    of [ensureToken], exactly one request: to the base URL followed by its
    path, the identifier appended to the path as it is, with its method, the
    content type application/json (also when there is no body), the current
    access token as bearer credential, and the marshalled request as body
    (none for the operations that take only an identifier). *)
Theorem domain_operations_routing (w : World) (invoiceID paymentID : string)
    (rInvoice : CreateInvoiceRequest) (rSimple : CreateSimpleInvoiceRequest)
    (rEbInvoice : CreateEbarimtInvoiceRequest) (rCheck : PaymentCheckRequest)
    (rList : PaymentListRequest) (rCancel : PaymentCancelRequest)
    (rRefund : PaymentRefundRequest) (rEbarimt : CreateEbarimtRequest) :
  (ensureToken env cfg w).1 = None ->
  let w1 := (ensureToken env cfg w).2 in
  (forall data, json_Marshal rInvoice = Ok data ->
     sends_domain_request env cfg w w1
       (CreateInvoice env cfg (InvoiceResponse := InvoiceResponse) rInvoice w).2
       "POST" "/v2/invoice" (Some data)) /\
  (forall data, json_Marshal rSimple = Ok data ->
     sends_domain_request env cfg w w1
       (CreateSimpleInvoice env cfg (InvoiceResponse := InvoiceResponse) rSimple w).2
       "POST" "/v2/invoice" (Some data)) /\
  (forall data, json_Marshal rEbInvoice = Ok data ->
     sends_domain_request env cfg w w1
       (CreateEbarimtInvoice env cfg (InvoiceResponse := InvoiceResponse)
          rEbInvoice w).2
       "POST" "/v2/invoice" (Some data)) /\
  sends_domain_request env cfg w w1 (CancelInvoice env cfg invoiceID w).2
    "DELETE" ("/v2/invoice/" +:+ invoiceID) None /\
  sends_domain_request env cfg w w1
    (GetPayment env cfg (PaymentDetail := PaymentDetail) paymentID w).2
    "GET" ("/v2/payment/" +:+ paymentID) None /\
  (forall data, json_Marshal rCheck = Ok data ->
     sends_domain_request env cfg w w1
       (CheckPayment env cfg (PaymentCheckResponse := PaymentCheckResponse)
          rCheck w).2
       "POST" "/v2/payment/check" (Some data)) /\
  (forall data, json_Marshal rList = Ok data ->
     sends_domain_request env cfg w w1
       (ListPayments env cfg (PaymentListResponse := PaymentListResponse) rList w).2
       "POST" "/v2/payment/list" (Some data)) /\
  (forall data, json_Marshal rCancel = Ok data ->
     sends_domain_request env cfg w w1 (CancelPayment env cfg paymentID rCancel w).2
       "DELETE" ("/v2/payment/cancel/" +:+ paymentID) (Some data)) /\
  (forall data, json_Marshal rRefund = Ok data ->
     sends_domain_request env cfg w w1 (RefundPayment env cfg paymentID rRefund w).2
       "DELETE" ("/v2/payment/refund/" +:+ paymentID) (Some data)) /\
  (forall data, json_Marshal rEbarimt = Ok data ->
     sends_domain_request env cfg w w1
       (CreateEbarimt env cfg (EbarimtResponse := EbarimtResponse) rEbarimt w).2
       "POST" "/v2/ebarimt_v3/create" (Some data)) /\
  sends_domain_request env cfg w w1
    (CancelEbarimt env cfg (EbarimtResponse := EbarimtResponse) paymentID w).2
    "DELETE" ("/v2/ebarimt_v3/" +:+ paymentID) None.
Proof.
  intros E. cbv zeta.
  assert (Mk : forall (B : Type) (MB : Marshaler B) (b : B) data,
             json_Marshal b = Ok data -> marshals (Some b) (Some data)).
  { intros B MB b data Mar. exists data. split; [exact Mar|reflexivity]. }
  repeat split.
  - intros data Mar. apply (value_op_sends _ _ _ _ w _ (CreateInvoice_op rInvoice) E).
    apply Mk. exact Mar.
  - intros data Mar.
    apply (value_op_sends _ _ _ _ w _ (CreateSimpleInvoice_op rSimple) E).
    apply Mk. exact Mar.
  - intros data Mar.
    apply (value_op_sends _ _ _ _ w _ (CreateEbarimtInvoice_op rEbInvoice) E).
    apply Mk. exact Mar.
  - apply (error_op_sends _ _ _ _ w _ (CancelInvoice_op invoiceID) E). reflexivity.
  - apply (value_op_sends _ _ _ _ w _ (GetPayment_op paymentID) E). reflexivity.
  - intros data Mar. apply (value_op_sends _ _ _ _ w _ (CheckPayment_op rCheck) E).
    apply Mk. exact Mar.
  - intros data Mar. apply (value_op_sends _ _ _ _ w _ (ListPayments_op rList) E).
    apply Mk. exact Mar.
  - intros data Mar.
    apply (error_op_sends _ _ _ _ w _ (CancelPayment_op paymentID rCancel) E).
    apply Mk. exact Mar.
  - intros data Mar.
    apply (error_op_sends _ _ _ _ w _ (RefundPayment_op paymentID rRefund) E).
    apply Mk. exact Mar.
  - intros data Mar. apply (value_op_sends _ _ _ _ w _ (CreateEbarimt_op rEbarimt) E).
    apply Mk. exact Mar.
  - apply (value_op_sends _ _ _ _ w _ (CancelEbarimt_op paymentID) E). reflexivity.
Qed.

(** X17 (unnamed/part_006:7-39, unnamed/part_007:422-460,
    unnamed/part_004:7-23, client.go:178-184): what the domain operations
    return on an answer inside [200,300).  An operation with a response
    returns the zero response, without error, when the body is empty; the
    body decoded into a zero response otherwise; and on a decoding error no
    response at all but the error wrapped under "failed to unmarshal
    response: ".  [CancelInvoice], [CancelPayment] and [RefundPayment]
    return nil whatever the body is. *)
Theorem domain_operations_results (w : World) (invoiceID paymentID : string)
    (rInvoice : CreateInvoiceRequest) (rSimple : CreateSimpleInvoiceRequest)
    (rEbInvoice : CreateEbarimtInvoiceRequest) (rCheck : PaymentCheckRequest)
    (rList : PaymentListRequest) (rCancel : PaymentCancelRequest)
    (rRefund : PaymentRefundRequest) (rEbarimt : CreateEbarimtRequest)
    (status : Z) (respBody : string) :
  (ensureToken env cfg w).1 = None ->
  200 <= status < 300 ->
  let w1 := (ensureToken env cfg w).2 in
  (forall data, json_Marshal rInvoice = Ok data ->
     answered env cfg w1 "POST" "/v2/invoice" (Some data) status respBody ->
     returns_decoded respBody
       (CreateInvoice env cfg (InvoiceResponse := InvoiceResponse) rInvoice w).1) /\
  (forall data, json_Marshal rSimple = Ok data ->
     answered env cfg w1 "POST" "/v2/invoice" (Some data) status respBody ->
     returns_decoded respBody
       (CreateSimpleInvoice env cfg (InvoiceResponse := InvoiceResponse) rSimple w).1) /\
  (forall data, json_Marshal rEbInvoice = Ok data ->
     answered env cfg w1 "POST" "/v2/invoice" (Some data) status respBody ->
     returns_decoded respBody
       (CreateEbarimtInvoice env cfg (InvoiceResponse := InvoiceResponse)
          rEbInvoice w).1) /\
  (answered env cfg w1 "DELETE" ("/v2/invoice/" +:+ invoiceID) None status respBody ->
   (CancelInvoice env cfg invoiceID w).1 = None) /\
  (answered env cfg w1 "GET" ("/v2/payment/" +:+ paymentID) None status respBody ->
   returns_decoded respBody
     (GetPayment env cfg (PaymentDetail := PaymentDetail) paymentID w).1) /\
  (forall data, json_Marshal rCheck = Ok data ->
     answered env cfg w1 "POST" "/v2/payment/check" (Some data) status respBody ->
     returns_decoded respBody
       (CheckPayment env cfg (PaymentCheckResponse := PaymentCheckResponse)
          rCheck w).1) /\
  (forall data, json_Marshal rList = Ok data ->
     answered env cfg w1 "POST" "/v2/payment/list" (Some data) status respBody ->
     returns_decoded respBody
       (ListPayments env cfg (PaymentListResponse := PaymentListResponse) rList w).1) /\
  (forall data, json_Marshal rCancel = Ok data ->
     answered env cfg w1 "DELETE" ("/v2/payment/cancel/" +:+ paymentID) (Some data)
       status respBody ->
     (CancelPayment env cfg paymentID rCancel w).1 = None) /\
  (forall data, json_Marshal rRefund = Ok data ->
     answered env cfg w1 "DELETE" ("/v2/payment/refund/" +:+ paymentID) (Some data)
       status respBody ->
     (RefundPayment env cfg paymentID rRefund w).1 = None) /\
  (forall data, json_Marshal rEbarimt = Ok data ->
     answered env cfg w1 "POST" "/v2/ebarimt_v3/create" (Some data) status respBody ->
     returns_decoded respBody
       (CreateEbarimt env cfg (EbarimtResponse := EbarimtResponse) rEbarimt w).1) /\
  (answered env cfg w1 "DELETE" ("/v2/ebarimt_v3/" +:+ paymentID) None status respBody ->
   returns_decoded respBody
     (CancelEbarimt env cfg (EbarimtResponse := EbarimtResponse) paymentID w).1).
Proof.
  intros E S. cbv zeta.
  assert (Mk : forall (B : Type) (MB : Marshaler B) (b : B) data,
             json_Marshal b = Ok data -> marshals (Some b) (Some data)).
  { intros B MB b data Mar. exists data. split; [exact Mar|reflexivity]. }
  split; [|split; [|split; [|split; [|split; [|split; [|split; [|split;
    [|split; [|split]]]]]]]]].
  - intros data Mar An.
    exact (value_op_result _ _ _ _ w _ status respBody (CreateInvoice_op rInvoice)
             E S (Mk _ _ _ _ Mar) An).
  - intros data Mar An.
    exact (value_op_result _ _ _ _ w _ status respBody (CreateSimpleInvoice_op rSimple)
             E S (Mk _ _ _ _ Mar) An).
  - intros data Mar An.
    exact (value_op_result _ _ _ _ w _ status respBody
             (CreateEbarimtInvoice_op rEbInvoice) E S (Mk _ _ _ _ Mar) An).
  - intros An.
    exact (error_op_result _ _ _ _ w None status respBody (CancelInvoice_op invoiceID)
             E S eq_refl An).
  - intros An.
    exact (value_op_result _ _ _ _ w None status respBody (GetPayment_op paymentID)
             E S eq_refl An).
  - intros data Mar An.
    exact (value_op_result _ _ _ _ w _ status respBody (CheckPayment_op rCheck)
             E S (Mk _ _ _ _ Mar) An).
  - intros data Mar An.
    exact (value_op_result _ _ _ _ w _ status respBody (ListPayments_op rList)
             E S (Mk _ _ _ _ Mar) An).
  - intros data Mar An.
    exact (error_op_result _ _ _ _ w _ status respBody
             (CancelPayment_op paymentID rCancel) E S (Mk _ _ _ _ Mar) An).
  - intros data Mar An.
    exact (error_op_result _ _ _ _ w _ status respBody
             (RefundPayment_op paymentID rRefund) E S (Mk _ _ _ _ Mar) An).
  - intros data Mar An.
    exact (value_op_result _ _ _ _ w _ status respBody (CreateEbarimt_op rEbarimt)
             E S (Mk _ _ _ _ Mar) An).
  - intros An.
    exact (value_op_result _ _ _ _ w None status respBody (CancelEbarimt_op paymentID)
             E S eq_refl An).
Qed.

End AllDomainOperations.

Lemma domain_operations_routing_witness :
  let env := test_env refresh_401 ok_abc (Response 200 "{response}") in
  requests (emitted world_valid
    (@CancelPayment env test_cfg string text_Marshaler "PAY_1" "{note}"
       world_valid).2) =
    [domainRequest test_cfg "DELETE" "/v2/payment/cancel/PAY_1" "access-abc"
       (Some "{note}")] /\
  requests (emitted world_valid
    (@CancelEbarimt env test_cfg string text_Unmarshaler "PAY_1" world_valid).2) =
    [domainRequest test_cfg "DELETE" "/v2/ebarimt_v3/PAY_1" "access-abc" None].
Proof.
  cbv zeta.
  assert (E : (ensureToken (test_env refresh_401 ok_abc (Response 200 "{response}"))
                 test_cfg world_valid).1 = None) by (vm_compute; reflexivity).
  destruct (@domain_operations_routing
              (test_env refresh_401 ok_abc (Response 200 "{response}")) test_cfg
              string string string string string string string string string
              string string string string
              text_Marshaler text_Marshaler text_Marshaler text_Marshaler
              text_Marshaler text_Marshaler text_Marshaler text_Marshaler
              text_Unmarshaler text_Unmarshaler text_Unmarshaler text_Unmarshaler
              text_Unmarshaler
              world_valid "INV_1" "PAY_1" "{invoice}" "{simple}" "{ebarimt-invoice}"
              "{check}" "{list}" "{note}" "{refund}" "{ebarimt}" E)
    as (_ & _ & _ & _ & _ & _ & _ & Cancel & _ & _ & CancelEb).
  split.
  - rewrite (Cancel "{note}" eq_refl eq_refl). vm_compute. reflexivity.
  - rewrite (CancelEb eq_refl). vm_compute. reflexivity.
Defined.

Lemma domain_operations_results_witness :
  let env := test_env refresh_401 ok_abc (Response 200 "{response}") in
  (@CreateInvoice env test_cfg string string text_Marshaler text_Unmarshaler
     "{invoice}" world_valid).1 = Ok "{response}" /\
  (@CancelInvoice env test_cfg "INV_1" world_valid).1 = None /\
  (@CreateInvoice (test_env refresh_401 ok_abc (Response 200 "")) test_cfg
     string string text_Marshaler text_Unmarshaler "{invoice}" world_valid).1 =
    Ok "".
Proof.
  cbv zeta.
  assert (E : forall body,
            (ensureToken (test_env refresh_401 ok_abc (Response 200 body))
               test_cfg world_valid).1 = None) by (intros body; vm_compute; reflexivity).
  assert (S : 200 <= 200 < 300) by lia.
  destruct (@domain_operations_results
              (test_env refresh_401 ok_abc (Response 200 "{response}")) test_cfg
              string string string string string string string string string
              string string string string
              text_Marshaler text_Marshaler text_Marshaler text_Marshaler
              text_Marshaler text_Marshaler text_Marshaler text_Marshaler
              text_Unmarshaler text_Unmarshaler text_Unmarshaler text_Unmarshaler
              text_Unmarshaler
              world_valid "INV_1" "PAY_1" "{invoice}" "{simple}" "{ebarimt-invoice}"
              "{check}" "{list}" "{note}" "{refund}" "{ebarimt}" 200 "{response}"
              (E _) S)
    as (Create & _ & _ & Cancel & _).
  destruct (@domain_operations_results
              (test_env refresh_401 ok_abc (Response 200 "")) test_cfg
              string string string string string string string string string
              string string string string
              text_Marshaler text_Marshaler text_Marshaler text_Marshaler
              text_Marshaler text_Marshaler text_Marshaler text_Marshaler
              text_Unmarshaler text_Unmarshaler text_Unmarshaler text_Unmarshaler
              text_Unmarshaler
              world_valid "INV_1" "PAY_1" "{invoice}" "{simple}" "{ebarimt-invoice}"
              "{check}" "{list}" "{note}" "{refund}" "{ebarimt}" 200 ""
              (E _) S)
    as (Empty & _).
  split; [|split].
  - destruct (Create "{invoice}" eq_refl) as (_ & Dec & _).
    + split; vm_compute; reflexivity.
    + apply Dec; [discriminate|reflexivity].
  - apply Cancel. split; vm_compute; reflexivity.
  - destruct (Empty "{invoice}" eq_refl) as (Z0 & _).
    + split; vm_compute; reflexivity.
    + apply Z0. reflexivity.
Defined.
